(** * Stock analysis dashboard: data acquisition and alignment pipeline

    A shallow embedding of [script.js]: the moving-average engine
    ([calculateSMA]), the series alignment done in [updateChartsUI], the fetch
    orchestrator ([fetchAllEndpoints], a [Promise.all] over seven requests) and
    the coordinator ([fetchAndDisplayDashboard]) with its loading flag.

    JavaScript numbers are IEEE 754 binary64 values: they are embedded as
    Rocq's primitive floats, so every definition below evaluates exactly as
    the script does. *)

From Stdlib Require Import ZArith List Bool Lia Ascii String Floats.
Import ListNotations.
Open Scope Z_scope.

(** ** JavaScript values used by the script *)

(** A value read from a decoded JSON payload or passed as an argument may be
    absent: [undefined] (a missing property) or [null]. *)
Inductive nullable (A : Type) : Type :=
| js_undefined
| js_null
| js_val (a : A).
Arguments js_undefined {A}.
Arguments js_null {A}.
Arguments js_val {A} a.

(** Exceptions the script can raise or receive. *)
Inductive js_error : Type :=
| TypeError                       (* property read on undefined or null, call of a non-function *)
| SyntaxError                     (* res.json() on a body that is not JSON *)
| FetchFailed                     (* fetch(url) rejected: network-level failure *)
| Error (message : string).       (* new Error(message) *)

(** The outcome of evaluating a piece of code. *)
Inductive completion (A : Type) : Type :=
| Normal (a : A)
| Throw (e : js_error).
Arguments Normal {A} a.
Arguments Throw {A} e.

Definition bind {A B} (c : completion A) (k : A -> completion B) : completion B :=
  match c with
  | Normal a => k a
  | Throw e => Throw e
  end.

Notation "x <- c ;; k" := (bind c (fun x => k))
  (at level 61, c at next level, right associativity).

(** [!v]: arrays and objects are truthy, [undefined] and [null] are falsy. *)
Definition js_not {A} (v : nullable A) : bool :=
  match v with
  | js_val _ => false
  | _ => true
  end.

(** [a.length] *)
Definition alength {A} (a : list A) : Z := Z.of_nat (List.length a).

(** [a[i]] on an array: [None] stands for [undefined] (index out of range). *)
Definition aget {A} (a : list A) (i : Z) : option A :=
  if i <? 0 then None else nth_error a (Z.to_nat i).

(** [v.length] on a value that may be absent. *)
Definition get_length {A} (v : nullable (list A)) : completion Z :=
  match v with
  | js_val a => Normal (alength a)
  | _ => Throw TypeError
  end.

(** [v[i]] on a value that may be absent. *)
Definition get_index {A} (v : nullable (list A)) (i : Z) : completion (option A) :=
  match v with
  | js_val a => Normal (aget a i)
  | _ => Throw TypeError
  end.

(** The number with an integer value (round to nearest, as a numeric literal). *)
Definition num_of_Z (z : Z) : float :=
  SF2Prim (binary_normalize prec emax z 0 false).

(** [x + y] where [y] was read from an array: [x + undefined] is [NaN]. *)
Definition js_add (x : float) (y : option float) : float :=
  match y with
  | Some v => (x + v)%float
  | None => nan
  end.

(** [x > y] on values read from arrays: a comparison with [undefined] is false. *)
Definition js_gt (x y : option float) : bool :=
  match x, y with
  | Some a, Some b => (b <? a)%float
  | _, _ => false
  end.

(** [for (let i = lo; i < hi; i++) s = body(i, s)], for a body that assigns
    neither [i] nor [hi]: the loop runs [max 0 (hi - lo)] times. *)
Fixpoint for_up {St : Type} (n : nat) (i : Z) (body : Z -> St -> St) (s : St) : St :=
  match n with
  | O => s
  | S n' => for_up n' (i + 1) body (body i s)
  end.

Definition for_range {St : Type} (lo hi : Z) (body : Z -> St -> St) (s : St) : St :=
  for_up (Z.to_nat (hi - lo)) lo body s.

(** ** Indicator engine *)

(** The inner loop of [calculateSMA]:
    [let sum = 0; for (let j = 0; j < period; j++) sum += data[i - j];] *)
Definition window_sum (data : list float) (period i : Z) : float :=
  for_range 0 period (fun j sum => js_add sum (aget data (i - j))) 0%float.

(** [calculateSMA(data, period)] *)
Definition calculateSMA (data : nullable (list float)) (period : Z)
  : completion (list float) :=
  if js_not data then Normal []
  else
    len <- get_length data ;;
    if len <? period then Normal []
    else
      match data with
      | js_val d =>
          Normal (for_range (period - 1) len
                    (fun i results => results ++ [(window_sum d period i / num_of_Z period)%float])
                    [])
      | _ => Throw TypeError
      end.

(** *** What the spec asks of the moving average *)

(** The bars [s[k .. k+period-1]]. *)
Definition window (s : list float) (k period : Z) : list float :=
  firstn (Z.to_nat period) (skipn (Z.to_nat k) s).

(** Floating-point sum of a window; the newest bar is added first, then the
    older ones (floating-point addition is not associative, so the order is
    part of the value). *)
Fixpoint fsum (w : list float) : float :=
  match w with
  | [] => 0%float
  | x :: r => (fsum r + x)%float
  end.

(** Arithmetic mean of a non-empty window, in floating point. *)
Definition mean (w : list float) : float :=
  (fsum w / num_of_Z (alength w))%float.

(** The indices [lo, lo+1, ..., lo+n-1]. *)
Fixpoint zseq (lo : Z) (n : nat) : list Z :=
  match n with
  | O => []
  | S n' => lo :: zseq (lo + 1) n'
  end.

(** ** Decoded payloads

    [res.json()] yields plain data.  Each endpoint's payload is an object of
    the shape the remote API documents; any of its properties may be missing
    ([undefined]) or [null], and a property that is present holds a value of
    the documented type (numbers, strings, arrays of numbers). *)

Record profile_payload := {
  name : nullable string;
  ticker : nullable string;
  logo : nullable string;
  finnhubIndustry : nullable string;
  weburl : nullable string;
  exchange : nullable string
}.

Record quote_payload := {
  quote_c : nullable float             (* c: current price *)
}.

Record metric_object := {
  marketCapitalization : nullable float;
  week52High : nullable float;         (* '52WeekHigh' *)
  week52Low : nullable float;          (* '52WeekLow' *)
  peNormalizedAnnual : nullable float
}.

Record metrics_payload := {
  metric : nullable metric_object
}.

(** The properties [s], [t], [o], [h], [l], [c], [v] of the candles payload. *)
Record candles_payload := {
  c_s : nullable string;
  c_t : nullable (list Z);
  c_o : nullable (list float);
  c_h : nullable (list float);
  c_l : nullable (list float);
  c_c : nullable (list float);
  c_v : nullable (list float)
}.

Record rsi_payload := {
  rsi_t : nullable (list Z);           (* t *)
  rsi : nullable (list float)
}.

Record macd_payload := {
  macd_t : nullable (list Z);          (* t *)
  macd : nullable (list float);
  signal : nullable (list float);
  macdHist : nullable (list float)
}.

Record article := {
  url : nullable string;
  headline : nullable string;
  datetime : nullable float;
  source : nullable string
}.

(** The object [dataObject] assembled by [fetchAllEndpoints]. *)
Record bundle := {
  data_profile : profile_payload;
  data_quote : quote_payload;
  data_metrics : metrics_payload;
  data_candles : candles_payload;
  data_rsi : rsi_payload;
  data_macd : macd_payload;
  data_news : list article
}.

(** ** Series aligner: the point sequences built by [updateChartsUI] *)

(** [{ time, open, high, low, close }] *)
Record ohlc_point := {
  time : Z;
  open : option float;
  high : option float;
  low : option float;
  close : option float
}.

(** [{ time, value, color }] *)
Record colored_point := {
  cp_time : Z;
  cp_value : option float;
  cp_color : string
}.

(** [{ time, value }]; the time of a moving-average point is read from
    [candles.t] by index and is [undefined] out of range. *)
Record value_point := {
  vp_time : option Z;
  vp_value : option float
}.

Definition up_color : string := "rgba(38, 166, 154, 0.5)".
Definition down_color : string := "rgba(239, 83, 80, 0.5)".

(** [x >= 0] on a value read from an array. *)
Definition js_ge_zero (x : option float) : bool :=
  match x with
  | Some a => (0 <=? a)%float
  | None => false
  end.

(** [a.map((x, index) => f(x, index))] with a callback that may throw. *)
Fixpoint map_from {A B : Type} (i : Z) (f : A -> Z -> completion B) (a : list A)
  : completion (list B) :=
  match a with
  | [] => Normal []
  | x :: r =>
      y <- f x i ;;
      ys <- map_from (i + 1) f r ;;
      Normal (y :: ys)
  end.

(** [v.map(f)] on a value that may be absent. *)
Definition js_map {A B : Type} (v : nullable (list A)) (f : A -> Z -> completion B)
  : completion (list B) :=
  match v with
  | js_val a => map_from 0 f a
  | _ => Throw TypeError
  end.

Definition candlestickData (candles : candles_payload) : completion (list ohlc_point) :=
  js_map (c_t candles) (fun time index =>
    op <- get_index (c_o candles) index ;;
    hi <- get_index (c_h candles) index ;;
    lo <- get_index (c_l candles) index ;;
    cl <- get_index (c_c candles) index ;;
    Normal {| time := time; open := op; high := hi; low := lo; close := cl |}).

Definition volumeData (candles : candles_payload) : completion (list colored_point) :=
  js_map (c_t candles) (fun time index =>
    vol <- get_index (c_v candles) index ;;
    cl <- get_index (c_c candles) index ;;
    op <- get_index (c_o candles) index ;;
    Normal {| cp_time := time; cp_value := vol;
              cp_color := if js_gt cl op then up_color else down_color |}).

(** [ts.map((time, index) => ({ time, value: values[index] }))] *)
Definition indicatorData (ts : nullable (list Z)) (values : nullable (list float))
  : completion (list value_point) :=
  js_map ts (fun time index =>
    val <- get_index values index ;;
    Normal {| vp_time := Some time; vp_value := val |}).

Definition macdHistData (m : macd_payload) : completion (list colored_point) :=
  js_map (macd_t m) (fun time index =>
    histValue <- get_index (macdHist m) index ;;
    Normal {| cp_time := time; cp_value := histValue;
              cp_color := if js_ge_zero histValue then up_color else down_color |}).

(** The chart series: what each one was last given through [setData]. *)
Record chart_series := {
  candlestick : list ohlc_point;
  volume : list colored_point;
  sma50 : list value_point;
  sma200 : list value_point;
  series_rsi : list value_point;
  macdLine : list value_point;
  macdSignal : list value_point;
  series_macdHist : list colored_point
}.

(** ** Dashboard state

    The script's globals: [state], the DOM nodes of [dom] it writes to, the
    chart [series], plus what it shows through [alert] and keeps in
    [localStorage]. *)

(** A status or alert message: a text the script spells out, or the message
    of a caught error (the text of an engine-made error is left to the engine). *)
Inductive message_text : Type :=
| Text (text : string)
| MessageOf (e : js_error).

(** [logStatus(message, type)]: one paragraph of the status log. *)
Record log_entry := {
  entry_message : message_text;
  entry_type : string
}.

(** What [updateProfileUI] writes. *)
Record profile_view := {
  companyName : string;
  companyTicker : string;
  companyLogo : string;
  priceChartTitle : string;
  industry_text : string;
  website_href : string;
  website_text : string;
  exchange_text : string
}.

(** The text of a metric card: [x.toFixed(2)] or a literal. *)
Inductive card_value : Type :=
| Fixed2 (x : float)
| Literal (text : string).

(** What [updateMetricsUI] writes. *)
Record metrics_view := {
  card_price : card_value;
  card_marketCap : card_value;
  card_high : card_value;
  card_low : card_value;
  card_pe : card_value
}.

Record app_state := {
  apiKey : option string;              (* null or a string *)
  currentTicker : string;
  isLoading : bool
}.

Record dom_state := {
  tickerInput : string;                (* dom.tickerInput.value *)
  apiKeyInput : string;                (* dom.apiKeyInput.value *)
  submitBtnText : string;
  submitBtnDisabled : bool;
  locked : bool;                       (* class 'locked' on mainContent *)
  profileSection : option profile_view;     (* None: as the page was loaded *)
  metricsSection : option metrics_view;
  newsSection : option (list article);
  statusLog : list log_entry           (* latest on top *)
}.

Record dashboard := {
  state : app_state;
  dom : dom_state;
  series : chart_series;
  alerts : list message_text;          (* alert(...) calls, latest first *)
  localStorage : option string         (* the item 'finnhubApiKey' *)
}.

Definition with_state (f : app_state -> app_state) (d : dashboard) : dashboard :=
  {| state := f (state d); dom := dom d; series := series d;
     alerts := alerts d; localStorage := localStorage d |}.

Definition with_dom (f : dom_state -> dom_state) (d : dashboard) : dashboard :=
  {| state := state d; dom := f (dom d); series := series d;
     alerts := alerts d; localStorage := localStorage d |}.

Definition with_series (f : chart_series -> chart_series) (d : dashboard) : dashboard :=
  {| state := state d; dom := dom d; series := f (series d);
     alerts := alerts d; localStorage := localStorage d |}.

Definition set_apiKey (k : option string) (a : app_state) : app_state :=
  {| apiKey := k; currentTicker := currentTicker a; isLoading := isLoading a |}.

Definition set_currentTicker (x : string) (a : app_state) : app_state :=
  {| apiKey := apiKey a; currentTicker := x; isLoading := isLoading a |}.

Definition set_isLoading (b : bool) (a : app_state) : app_state :=
  {| apiKey := apiKey a; currentTicker := currentTicker a; isLoading := b |}.

Definition set_inputs (tick key : string) (m : dom_state) : dom_state :=
  {| tickerInput := tick; apiKeyInput := key;
     submitBtnText := submitBtnText m; submitBtnDisabled := submitBtnDisabled m;
     locked := locked m; profileSection := profileSection m;
     metricsSection := metricsSection m; newsSection := newsSection m;
     statusLog := statusLog m |}.

Definition set_submitBtn (text : string) (disabled : bool) (m : dom_state) : dom_state :=
  {| tickerInput := tickerInput m; apiKeyInput := apiKeyInput m;
     submitBtnText := text; submitBtnDisabled := disabled;
     locked := locked m; profileSection := profileSection m;
     metricsSection := metricsSection m; newsSection := newsSection m;
     statusLog := statusLog m |}.

Definition set_locked (b : bool) (m : dom_state) : dom_state :=
  {| tickerInput := tickerInput m; apiKeyInput := apiKeyInput m;
     submitBtnText := submitBtnText m; submitBtnDisabled := submitBtnDisabled m;
     locked := b; profileSection := profileSection m;
     metricsSection := metricsSection m; newsSection := newsSection m;
     statusLog := statusLog m |}.

Definition set_profileSection (x : profile_view) (m : dom_state) : dom_state :=
  {| tickerInput := tickerInput m; apiKeyInput := apiKeyInput m;
     submitBtnText := submitBtnText m; submitBtnDisabled := submitBtnDisabled m;
     locked := locked m; profileSection := Some x;
     metricsSection := metricsSection m; newsSection := newsSection m;
     statusLog := statusLog m |}.

Definition set_metricsSection (x : metrics_view) (m : dom_state) : dom_state :=
  {| tickerInput := tickerInput m; apiKeyInput := apiKeyInput m;
     submitBtnText := submitBtnText m; submitBtnDisabled := submitBtnDisabled m;
     locked := locked m; profileSection := profileSection m;
     metricsSection := Some x; newsSection := newsSection m;
     statusLog := statusLog m |}.

Definition set_newsSection (x : list article) (m : dom_state) : dom_state :=
  {| tickerInput := tickerInput m; apiKeyInput := apiKeyInput m;
     submitBtnText := submitBtnText m; submitBtnDisabled := submitBtnDisabled m;
     locked := locked m; profileSection := profileSection m;
     metricsSection := metricsSection m; newsSection := Some x;
     statusLog := statusLog m |}.

Definition push_statusLog (e : log_entry) (m : dom_state) : dom_state :=
  {| tickerInput := tickerInput m; apiKeyInput := apiKeyInput m;
     submitBtnText := submitBtnText m; submitBtnDisabled := submitBtnDisabled m;
     locked := locked m; profileSection := profileSection m;
     metricsSection := metricsSection m; newsSection := newsSection m;
     statusLog := e :: statusLog m |}.

(** ** Helper utilities *)

(** [logStatus(message, type = 'info')]: prepends an entry to the log. *)
Definition logStatus (message : message_text) (type : string) (d : dashboard) : dashboard :=
  with_dom (push_statusLog {| entry_message := message; entry_type := type |}) d.

(** [alert(message)] *)
Definition alert (message : message_text) (d : dashboard) : dashboard :=
  {| state := state d; dom := dom d; series := series d;
     alerts := message :: alerts d; localStorage := localStorage d |}.

(** [setUiLoading(isLoading)] *)
Definition setUiLoading (loading : bool) (d : dashboard) : dashboard :=
  with_dom (set_submitBtn (if loading then "Loading..." else "Load Data") loading)
    (with_state (set_isLoading loading) d).

(** [toggleDashboardLock(isLocked)] *)
Definition toggleDashboardLock (isLocked : bool) (d : dashboard) : dashboard :=
  with_dom (set_locked isLocked) d.

(** [s.toUpperCase()] on the letters a-z. *)
Definition upper_ascii (a : ascii) : ascii :=
  let n := nat_of_ascii a in
  if ((97 <=? n) && (n <=? 122))%nat then ascii_of_nat (n - 32) else a.

Fixpoint toUpperCase (x : string) : string :=
  match x with
  | EmptyString => EmptyString
  | String a r => String (upper_ascii a) (toUpperCase r)
  end.

(** [s.trim()] for the white space of ASCII. *)
Definition is_space (a : ascii) : bool :=
  let n := nat_of_ascii a in
  ((n =? 32) || ((9 <=? n) && (n <=? 13)))%nat.

Fixpoint trim_start (x : string) : string :=
  match x with
  | EmptyString => EmptyString
  | String a r => if is_space a then trim_start r else x
  end.

Fixpoint trim_end (x : string) : string :=
  match x with
  | EmptyString => EmptyString
  | String a r =>
      match trim_end r with
      | EmptyString => if is_space a then EmptyString else String a EmptyString
      | r' => String a r'
      end
  end.

Definition trim (x : string) : string := trim_end (trim_start x).

(** Truthiness of a string or of [null]: [!v]. *)
Definition string_falsy (x : string) : bool :=
  match x with
  | EmptyString => true
  | _ => false
  end.

Definition key_falsy (k : option string) : bool :=
  match k with
  | Some x => string_falsy x
  | None => true
  end.

(** [v || dflt] for a string property. *)
Definition or_default (x : nullable string) (dflt : string) : string :=
  match x with
  | js_val x' => if string_falsy x' then dflt else x'
  | _ => dflt
  end.

(** [`${v}`] for a string property. *)
Definition template_of (x : nullable string) : string :=
  match x with
  | js_undefined => "undefined"
  | js_null => "null"
  | js_val x' => x'
  end.

(** [ToNumber] of a number property. *)
Definition to_number (x : nullable float) : float :=
  match x with
  | js_undefined => nan
  | js_null => 0%float
  | js_val a => a
  end.

(** [x?.toFixed(2) || dflt] for a number property. *)
Definition fixed_or (x : nullable float) (dflt : string) : card_value :=
  match x with
  | js_val a => Fixed2 a
  | _ => Literal dflt
  end.

(** ** Fetch orchestrator *)

(** The keys of [endpoints], in the order of the object literal. *)
Inductive endpoint : Type :=
| key_profile | key_quote | key_metrics | key_candles | key_rsi | key_macd | key_news.

Definition endpoints : list endpoint :=
  [key_profile; key_quote; key_metrics; key_candles; key_rsi; key_macd; key_news].

Definition endpoint_name (k : endpoint) : string :=
  match k with
  | key_profile => "profile"
  | key_quote => "quote"
  | key_metrics => "metrics"
  | key_candles => "candles"
  | key_rsi => "rsi"
  | key_macd => "macd"
  | key_news => "news"
  end.

Definition endpoint_eqb (a b : endpoint) : bool :=
  match a, b with
  | key_profile, key_profile | key_quote, key_quote | key_metrics, key_metrics
  | key_candles, key_candles | key_rsi, key_rsi | key_macd, key_macd
  | key_news, key_news => true
  | _, _ => false
  end.

(** One [fetch(url)] call: the endpoint, and the symbol and token of its URL
    (the time range of the URL is read from the clock and is left out). *)
Record request := {
  req_key : endpoint;
  req_symbol : string;
  req_token : string
}.

(** What the network answers to one request: [fetch] rejects, or it resolves
    to a response with its [ok] flag and a body that [res.json()] decodes
    ([None]: the body is not JSON, [res.json()] rejects). *)
Inductive response (A : Type) : Type :=
| NetworkFailure
| HttpResponse (ok : bool) (body : option A).
Arguments NetworkFailure {A}.
Arguments HttpResponse {A} ok body.

(** The answers to the seven requests of one call. *)
Record responses := {
  resp_profile : response profile_payload;
  resp_quote : response quote_payload;
  resp_metrics : response metrics_payload;
  resp_candles : response candles_payload;
  resp_rsi : response rsi_payload;
  resp_macd : response macd_payload;
  resp_news : response (list article)
}.

(** The synchronous part of [fetchAllEndpoints(ticker)]: [Object.entries(endpoints).map]
    calls [fetch] once per endpoint, one after the other, before anything is awaited. *)
Definition fetchAllEndpoints_requests (ticker token : string) : list request :=
  map (fun key => {| req_key := key; req_symbol := ticker; req_token := token |}) endpoints.

(** How the promise of one entry settles:
    [fetch(url).then(res => { if (!res.ok) throw new Error(...); return res.json(); })
               .then(data => ({ key, data }))] *)
Definition request_promise {A : Type} (key : endpoint) (r : response A) : completion A :=
  match r with
  | NetworkFailure => Throw FetchFailed
  | HttpResponse ok body =>
      if negb ok
      then Throw (Error ("Network response for " ++ endpoint_name key ++ " was not ok."))
      else match body with
           | Some data => Normal data
           | None => Throw SyntaxError
           end
  end.

(** The value of a normal completion. *)
Definition normal_value {A : Type} (x : completion A) : option A :=
  match x with
  | Normal a => Some a
  | Throw _ => None
  end.

(** The rejection reason of the promise of [key], if it rejects. *)
Definition rejection {A : Type} (x : completion A) : option js_error :=
  match x with
  | Normal _ => None
  | Throw e => Some e
  end.

Definition request_rejection (env : responses) (key : endpoint) : option js_error :=
  match key with
  | key_profile => rejection (request_promise key_profile (resp_profile env))
  | key_quote => rejection (request_promise key_quote (resp_quote env))
  | key_metrics => rejection (request_promise key_metrics (resp_metrics env))
  | key_candles => rejection (request_promise key_candles (resp_candles env))
  | key_rsi => rejection (request_promise key_rsi (resp_rsi env))
  | key_macd => rejection (request_promise key_macd (resp_macd env))
  | key_news => rejection (request_promise key_news (resp_news env))
  end.

(** [results.reduce((acc, { key, data }) => { acc[key] = data; return acc; }, {})]
    over the seven fulfilled entries. *)
Definition reduce_results (env : responses) : completion bundle :=
  profile <- request_promise key_profile (resp_profile env) ;;
  quote <- request_promise key_quote (resp_quote env) ;;
  metrics <- request_promise key_metrics (resp_metrics env) ;;
  candles <- request_promise key_candles (resp_candles env) ;;
  rsi_data <- request_promise key_rsi (resp_rsi env) ;;
  macd_data <- request_promise key_macd (resp_macd env) ;;
  news <- request_promise key_news (resp_news env) ;;
  Normal {| data_profile := profile; data_quote := quote; data_metrics := metrics;
            data_candles := candles; data_rsi := rsi_data; data_macd := macd_data;
            data_news := news |}.

(** [dataObject.candles.s !== 'ok'] *)
Definition status_not_ok (status : nullable string) : bool :=
  match status with
  | js_val x => negb (String.eqb x "ok")
  | _ => true
  end.

(** The callback given to [Promise.all(promises).then]. *)
Definition on_all_fulfilled (env : responses) : completion bundle :=
  dataObject <- reduce_results env ;;
  if status_not_ok (c_s (data_candles dataObject))
  then Throw (Error "Failed to fetch historical candle data.")
  else Normal dataObject.

(** The promise returned by [fetchAllEndpoints]: the requests that have
    settled so far (latest first) and the promise's own state ([None]: pending). *)
Record orchestrator := {
  settled : list endpoint;
  outcome : option (completion bundle)
}.

Definition has_settled (key : endpoint) (p : orchestrator) : bool :=
  existsb (endpoint_eqb key) (settled p).

Definition all_settled (p : orchestrator) : bool :=
  forallb (fun key => has_settled key p) endpoints.

(** Right after the call: seven requests in flight, none settled. *)
Definition orchestrator_start : orchestrator :=
  {| settled := []; outcome := None |}.

(** The promise of [key] settles.  [Promise.all] rejects with the reason of
    the first entry that rejects, at once; it fulfils when the last entry
    has fulfilled, and the [then] callback runs on the array of results.  A
    promise settles once: later settlements do not change [outcome]. *)
Definition on_settle (env : responses) (key : endpoint) (p : orchestrator) : orchestrator :=
  if has_settled key p then p
  else
    let p' := {| settled := key :: settled p; outcome := outcome p |} in
    match outcome p with
    | Some _ => p'
    | None =>
        match request_rejection env key with
        | Some e => {| settled := settled p'; outcome := Some (Throw e) |}
        | None =>
            if all_settled p'
            then {| settled := settled p'; outcome := Some (on_all_fulfilled env) |}
            else p'
        end
    end.

(** A run of the orchestrator: the requests settle in the order of [schedule]. *)
Definition fetchAllEndpoints (env : responses) (schedule : list endpoint) : orchestrator :=
  fold_left (fun p key => on_settle env key p) schedule orchestrator_start.

(** ** UI update functions

    Code that writes to the dashboard and may throw part of the way: an
    [action] returns the dashboard as it is when the code completes or throws,
    and the exception if there is one. *)

Definition action : Type := dashboard -> dashboard * option js_error.

(** A statement that cannot throw. *)
Definition exec (f : dashboard -> dashboard) : action :=
  fun d => (f d, None).

(** Evaluate an expression, then go on with its value; a throw stops here. *)
Definition eval {A : Type} (x : completion A) (k : A -> action) : action :=
  fun d =>
    match x with
    | Normal a => k a d
    | Throw e => (d, Some e)
    end.

(** [a; b] *)
Definition and_then (a b : action) : action :=
  fun d =>
    match a d with
    | (d', None) => b d'
    | (d', Some e) => (d', Some e)
    end.

Notation "a >> b" := (and_then a b) (at level 62, right associativity).

(** [updateProfileUI(profile, quote)] *)
Definition updateProfileUI (profile : profile_payload) (quote : quote_payload) : action :=
  exec (fun d =>
    with_dom (set_profileSection
      {| companyName := or_default (name profile) "Company Name";
         companyTicker := or_default (ticker profile) "TICKER";
         companyLogo := or_default (logo profile) EmptyString;
         priceChartTitle :=
           or_default (name profile) (currentTicker (state d)) ++ " Daily Chart";
         industry_text := or_default (finnhubIndustry profile) "N/A";
         website_href := template_of (weburl profile);
         website_text := or_default (weburl profile) "N/A";
         exchange_text := or_default (exchange profile) "N/A" |}) d).

(** [updateMetricsUI(metricsData, quoteData)]: [metrics.marketCapitalization]
    throws when [metricsData.metric] is absent, before [innerHTML] is assigned. *)
Definition updateMetricsUI (metricsData : metrics_payload) (quoteData : quote_payload)
  : action :=
  let price := fixed_or (quote_c quoteData) "0.00" in
  match metric metricsData with
  | js_val metrics =>
      exec (with_dom (set_metricsSection
        {| card_price := price;
           card_marketCap := Fixed2 (to_number (marketCapitalization metrics) / 1000)%float;
           card_high := fixed_or (week52High metrics) "0.00";
           card_low := fixed_or (week52Low metrics) "0.00";
           card_pe := fixed_or (peNormalizedAnnual metrics) "N/A" |}))
  | _ => fun d => (d, Some TypeError)
  end.

(** [updateNewsUI(news)]: the five most recent articles. *)
Definition updateNewsUI (news : list article) : action :=
  exec (with_dom (set_newsSection (firstn 5 news))).

(** [sma.map((value, index) => ({ time: candles.t[index + offset], value }))] *)
Definition smaPlotData (candles : candles_payload) (offset : Z) (sma : list float)
  : completion (list value_point) :=
  map_from 0 (fun value index =>
    tm <- get_index (c_t candles) (index + offset) ;;
    Normal {| vp_time := tm; vp_value := Some value |}) sma.

Definition sma50PlotData (candles : candles_payload) (sma50Data : list float) :=
  smaPlotData candles 49 sma50Data.

Definition sma200PlotData (candles : candles_payload) (sma200Data : list float) :=
  smaPlotData candles 199 sma200Data.

(** [series.x.setData(points)] for each series. *)
Definition setData_candlestick (x : list ohlc_point) (c : chart_series) : chart_series :=
  {| candlestick := x; volume := volume c; sma50 := sma50 c; sma200 := sma200 c;
     series_rsi := series_rsi c; macdLine := macdLine c; macdSignal := macdSignal c;
     series_macdHist := series_macdHist c |}.

Definition setData_volume (x : list colored_point) (c : chart_series) : chart_series :=
  {| candlestick := candlestick c; volume := x; sma50 := sma50 c; sma200 := sma200 c;
     series_rsi := series_rsi c; macdLine := macdLine c; macdSignal := macdSignal c;
     series_macdHist := series_macdHist c |}.

Definition setData_sma50 (x : list value_point) (c : chart_series) : chart_series :=
  {| candlestick := candlestick c; volume := volume c; sma50 := x; sma200 := sma200 c;
     series_rsi := series_rsi c; macdLine := macdLine c; macdSignal := macdSignal c;
     series_macdHist := series_macdHist c |}.

Definition setData_sma200 (x : list value_point) (c : chart_series) : chart_series :=
  {| candlestick := candlestick c; volume := volume c; sma50 := sma50 c; sma200 := x;
     series_rsi := series_rsi c; macdLine := macdLine c; macdSignal := macdSignal c;
     series_macdHist := series_macdHist c |}.

Definition setData_rsi (x : list value_point) (c : chart_series) : chart_series :=
  {| candlestick := candlestick c; volume := volume c; sma50 := sma50 c; sma200 := sma200 c;
     series_rsi := x; macdLine := macdLine c; macdSignal := macdSignal c;
     series_macdHist := series_macdHist c |}.

Definition setData_macdLine (x : list value_point) (c : chart_series) : chart_series :=
  {| candlestick := candlestick c; volume := volume c; sma50 := sma50 c; sma200 := sma200 c;
     series_rsi := series_rsi c; macdLine := x; macdSignal := macdSignal c;
     series_macdHist := series_macdHist c |}.

Definition setData_macdSignal (x : list value_point) (c : chart_series) : chart_series :=
  {| candlestick := candlestick c; volume := volume c; sma50 := sma50 c; sma200 := sma200 c;
     series_rsi := series_rsi c; macdLine := macdLine c; macdSignal := x;
     series_macdHist := series_macdHist c |}.

Definition setData_macdHist (x : list colored_point) (c : chart_series) : chart_series :=
  {| candlestick := candlestick c; volume := volume c; sma50 := sma50 c; sma200 := sma200 c;
     series_rsi := series_rsi c; macdLine := macdLine c; macdSignal := macdSignal c;
     series_macdHist := x |}.

(** [updateChartsUI(data, sma50Data, sma200Data)]; [setData] stores the
    points, and the final [fitContent] calls change no data. *)
Definition updateChartsUI (data : bundle) (sma50Data sma200Data : list float) : action :=
  let candles := data_candles data in
  eval (candlestickData candles) (fun candlestick_data =>
  eval (volumeData candles) (fun volume_data =>
  eval (indicatorData (rsi_t (data_rsi data)) (rsi (data_rsi data))) (fun rsiPlotData =>
  eval (indicatorData (macd_t (data_macd data)) (macd (data_macd data))) (fun macdLineData =>
  eval (indicatorData (macd_t (data_macd data)) (signal (data_macd data))) (fun macdSignalData =>
  eval (macdHistData (data_macd data)) (fun macdHist_data =>
    exec (with_series (setData_candlestick candlestick_data)) >>
    exec (with_series (setData_volume volume_data)) >>
    exec (with_series (setData_rsi rsiPlotData)) >>
    exec (with_series (setData_macdLine macdLineData)) >>
    exec (with_series (setData_macdSignal macdSignalData)) >>
    exec (with_series (setData_macdHist macdHist_data)) >>
    eval (sma50PlotData candles sma50Data) (fun sma50_points =>
    eval (sma200PlotData candles sma200Data) (fun sma200_points =>
      exec (with_series (setData_sma50 sma50_points)) >>
      exec (with_series (setData_sma200 sma200_points)))))))))).

(** ** Dashboard coordinator *)

(** [fetchAndDisplayDashboard()] up to its [await]: the guard, then
    [setUiLoading(true)], the ticker, the first log line and the call of
    [fetchAllEndpoints].  [None]: the function returned at the guard;
    [Some requests]: it is suspended on the orchestrator's promise, with
    these requests issued. *)
Definition fetchAndDisplayDashboard_start (d : dashboard) : dashboard * option (list request) :=
  if isLoading (state d) || key_falsy (apiKey (state d))
  then
    ((if key_falsy (apiKey (state d))
      then alert (Text "Please save a valid API key before loading data.") d
      else d),
     None)
  else
    let d1 := setUiLoading true d in
    let d2 := with_state (set_currentTicker (toUpperCase (tickerInput (dom d1)))) d1 in
    let d3 := logStatus (Text ("Fetching all data for " ++ currentTicker (state d2) ++ "..."))
                "info" d2 in
    (d3, Some (fetchAllEndpoints_requests (currentTicker (state d3))
                 (match apiKey (state d3) with Some k => k | None => "null" end))).

(** The rest of the [try] block, once the awaited promise has settled. *)
Definition try_block (settled_with : completion bundle) : action :=
  eval settled_with (fun data =>
    exec (logStatus (Text "All data received. Processing...") "info") >>
    updateProfileUI (data_profile data) (data_quote data) >>
    updateMetricsUI (data_metrics data) (data_quote data) >>
    updateNewsUI (data_news data) >>
    eval (calculateSMA (c_c (data_candles data)) 50) (fun sma50Data =>
    eval (calculateSMA (c_c (data_candles data)) 200) (fun sma200Data =>
      updateChartsUI data sma50Data sma200Data >>
      exec (fun d =>
        logStatus (Text ("Dashboard updated for " ++ currentTicker (state d) ++ "."))
          "success" d)))).

(** The [catch] block: the error is logged and shown. *)
Definition catch_block (error : js_error) (d : dashboard) : dashboard :=
  alert (MessageOf error) (logStatus (MessageOf error) "error" d).

(** [fetchAndDisplayDashboard()] from its [await] to its end:
    [try { ... } catch (error) { ... } finally { setUiLoading(false); }] *)
Definition fetchAndDisplayDashboard_resume (settled_with : completion bundle) (d : dashboard)
  : dashboard :=
  match try_block settled_with d with
  | (d', None) => setUiLoading false d'
  | (d', Some error) => setUiLoading false (catch_block error d')
  end.

(** Whether the cycle fails: its [try] block throws. *)
Definition cycle_error (settled_with : completion bundle) (d : dashboard) : option js_error :=
  snd (try_block settled_with d).

(** What the dashboard renders: the three sections and the eight series. *)
Definition rendered (d : dashboard)
  : option profile_view * option metrics_view * option (list article) * chart_series :=
  (profileSection (dom d), metricsSection (dom d), newsSection (dom d), series d).

(** ** The page as an event system

    The script runs on one thread: a handler runs until it returns or reaches
    its [await].  A [system] is the dashboard, every request issued so far
    (oldest first) and the number of calls of [fetchAndDisplayDashboard]
    suspended at their [await]. *)

Record system := {
  dash : dashboard;
  issued : list request;
  in_flight : nat
}.

Definition with_dash (f : dashboard -> dashboard) (sys : system) : system :=
  {| dash := f (dash sys); issued := issued sys; in_flight := in_flight sys |}.

(** A call of [fetchAndDisplayDashboard()], up to its return or its [await]. *)
Definition call_fetchAndDisplayDashboard (sys : system) : system :=
  match fetchAndDisplayDashboard_start (dash sys) with
  | (d, Some requests) =>
      {| dash := d; issued := issued sys ++ requests; in_flight := S (in_flight sys) |}
  | (d, None) =>
      {| dash := d; issued := issued sys; in_flight := in_flight sys |}
  end.

Definition set_localStorage (k : string) (d : dashboard) : dashboard :=
  {| state := state d; dom := dom d; series := series d;
     alerts := alerts d; localStorage := Some k |}.

(** [handleApiKey()] *)
Definition handleApiKey (sys : system) : system :=
  match localStorage (dash sys) with
  | Some storedKey =>
      if string_falsy storedKey
      then with_dash (fun d =>
             toggleDashboardLock true
               (logStatus (Text "API Key not found. Please enter a key to begin.") "info" d)) sys
      else call_fetchAndDisplayDashboard
             (with_dash (fun d =>
                toggleDashboardLock false
                  (logStatus (Text "API Key found in browser memory.") "success"
                     (with_dom (set_inputs (tickerInput (dom d)) storedKey)
                        (with_state (set_apiKey (Some storedKey)) d)))) sys)
  | None =>
      with_dash (fun d =>
        toggleDashboardLock true
          (logStatus (Text "API Key not found. Please enter a key to begin.") "info" d)) sys
  end.

(** [handleKeySubmission()] *)
Definition handleKeySubmission (sys : system) : system :=
  let userKey := trim (apiKeyInput (dom (dash sys))) in
  if string_falsy userKey
  then with_dash (fun d =>
         alert (Text "API Key field cannot be empty.")
           (logStatus (Text "Please enter a valid API key.") "error" d)) sys
  else call_fetchAndDisplayDashboard
         (with_dash (fun d =>
            toggleDashboardLock false
              (logStatus (Text "API Key saved successfully.") "success"
                 (set_localStorage userKey
                    (with_state (set_apiKey (Some userKey)) d)))) sys).

Definition no_series : chart_series :=
  {| candlestick := []; volume := []; sma50 := []; sma200 := [];
     series_rsi := []; macdLine := []; macdSignal := []; series_macdHist := [] |}.

(** The globals when the script has been evaluated: [state] as its literal,
    the DOM as the page [page] gives it, empty series. *)
Definition script_loaded (page : dom_state) (stored : option string) : system :=
  {| dash := {| state := {| apiKey := None; currentTicker := "AAPL"; isLoading := false |};
                dom := page; series := no_series; alerts := [];
                localStorage := stored |};
     issued := [];
     in_flight := 0%nat |}.

(** [initialize()] (the later of the two declarations is the one in effect);
    [setupEventListeners] binds the two handlers of [step] below and
    [setupRsiChartLines] draws two fixed lines, neither writes to the dashboard. *)
Definition initialize (sys : system) : system :=
  handleApiKey
    (with_dash (logStatus (Text "Application initializing. Please provide an API key.") "info")
       sys).

(** One event of the page: a click on either button, the user editing the two
    inputs, or the promise awaited by a suspended cycle settling with an
    outcome the orchestrator can produce. *)
Inductive step : system -> system -> Prop :=
| step_submit : forall sys,
    step sys (call_fetchAndDisplayDashboard sys)
| step_saveKey : forall sys,
    step sys (handleKeySubmission sys)
| step_input : forall sys tick key,
    step sys (with_dash (with_dom (set_inputs tick key)) sys)
| step_settle : forall sys n env schedule settled_with,
    in_flight sys = S n ->
    outcome (fetchAllEndpoints env schedule) = Some settled_with ->
    step sys {| dash := fetchAndDisplayDashboard_resume settled_with (dash sys);
                issued := issued sys;
                in_flight := n |}.

(** The states of the page after [DOMContentLoaded]. *)
Inductive reachable (page : dom_state) (stored : option string) : system -> Prop :=
| reachable_initialize :
    reachable page stored (initialize (script_loaded page stored))
| reachable_step : forall sys sys',
    reachable page stored sys -> step sys sys' -> reachable page stored sys'.

(** [a.map((x, index) => g(x, index))] with a callback that does not throw. *)
Fixpoint imap {A B : Type} (i : Z) (g : A -> Z -> B) (a : list A) : list B :=
  match a with
  | [] => []
  | x :: r => g x i :: imap (i + 1) g r
  end.

(** What holds of the orchestrator's promise at every point of a run: while
    it is pending, every request settled so far has fulfilled and some
    request is still in flight; once settled, it holds either the reason of
    a request that rejected, or the result of the [then] callback on seven
    fulfilled requests. *)
Definition orchestrator_inv (env : responses) (p : orchestrator) : Prop :=
  match outcome p with
  | None =>
      all_settled p = false /\
      forall key, has_settled key p = true -> request_rejection env key = None
  | Some r =>
      (exists key e,
         has_settled key p = true /\ request_rejection env key = Some e /\ r = Throw e)
      \/ (all_settled p = true /\
          (forall key, request_rejection env key = None) /\
          r = on_all_fulfilled env)
  end.

(** What holds of the page between two events: the loading flag is set
    exactly while one cycle is suspended at its [await], there is never more
    than that one, and a cycle is only started with a key saved. *)
Definition page_inv (sys : system) : Prop :=
  in_flight sys = (if isLoading (state (dash sys)) then 1 else 0)%nat /\
  (isLoading (state (dash sys)) = true -> key_falsy (apiKey (state (dash sys))) = false).

(** ** Sample data *)

Definition sample_profile : profile_payload :=
  {| name := js_val "Apple Inc"%string; ticker := js_val "AAPL"%string; logo := js_undefined;
     finnhubIndustry := js_val "Technology"%string; weburl := js_val "https://www.apple.com/"%string;
     exchange := js_val "NASDAQ"%string |}.

Definition sample_quote : quote_payload := {| quote_c := js_val 190.5%float |}.

Definition sample_metrics : metrics_payload :=
  {| metric := js_val {| marketCapitalization := js_val 2900000%float;
                         week52High := js_val 199.5%float;
                         week52Low := js_val 124.25%float;
                         peNormalizedAnnual := js_null |} |}.

Definition sample_candles : candles_payload :=
  {| c_s := js_val "ok"%string;
     c_t := js_val [1700000000; 1700086400; 1700172800];
     c_o := js_val [10; 12; 11]%float;
     c_h := js_val [12; 13; 11.5]%float;
     c_l := js_val [9.5; 11; 10]%float;
     c_c := js_val [11; 12; 10.5]%float;
     c_v := js_val [1000; 2000; 1500]%float |}.

Definition sample_rsi : rsi_payload :=
  {| rsi_t := js_val [1700086400; 1700172800]; rsi := js_val [55; 48.5]%float |}.

Definition sample_macd : macd_payload :=
  {| macd_t := js_val [1700172800]; macd := js_val [0.5]%float;
     signal := js_val [0.25]%float; macdHist := js_val [0.25]%float |}.

Definition sample_news : list article :=
  [{| url := js_val "https://example.com/a"%string; headline := js_val "Headline"%string;
      datetime := js_val 1700000000%float; source := js_val "Wire"%string |}].

(** Seven requests that all succeed, with candles status ['ok']. *)
Definition all_ok : responses :=
  {| resp_profile := HttpResponse true (Some sample_profile);
     resp_quote := HttpResponse true (Some sample_quote);
     resp_metrics := HttpResponse true (Some sample_metrics);
     resp_candles := HttpResponse true (Some sample_candles);
     resp_rsi := HttpResponse true (Some sample_rsi);
     resp_macd := HttpResponse true (Some sample_macd);
     resp_news := HttpResponse true (Some sample_news) |}.

(** The same, but the profile request fails at the network level. *)
Definition profile_down : responses :=
  {| resp_profile := NetworkFailure;
     resp_quote := resp_quote all_ok; resp_metrics := resp_metrics all_ok;
     resp_candles := resp_candles all_ok; resp_rsi := resp_rsi all_ok;
     resp_macd := resp_macd all_ok; resp_news := resp_news all_ok |}.

(** The same, but the news request answers with a non-success status. *)
Definition news_not_ok : responses :=
  {| resp_profile := resp_profile all_ok;
     resp_quote := resp_quote all_ok; resp_metrics := resp_metrics all_ok;
     resp_candles := resp_candles all_ok; resp_rsi := resp_rsi all_ok;
     resp_macd := resp_macd all_ok; resp_news := HttpResponse false None |}.

(** The payload [{ "s": "no_data" }] of a symbol without candles. *)
Definition no_data_candles : candles_payload :=
  {| c_s := js_val "no_data"%string; c_t := js_undefined; c_o := js_undefined;
     c_h := js_undefined; c_l := js_undefined; c_c := js_undefined;
     c_v := js_undefined |}.

(** Seven transport-level successes, the candles payload saying ['no_data']. *)
Definition candles_no_data : responses :=
  {| resp_profile := resp_profile all_ok;
     resp_quote := resp_quote all_ok; resp_metrics := resp_metrics all_ok;
     resp_candles := HttpResponse true (Some no_data_candles);
     resp_rsi := resp_rsi all_ok;
     resp_macd := resp_macd all_ok; resp_news := resp_news all_ok |}.

(** Seven successes with candles status ['ok'], the indicator endpoint
    answering [{ "s": "no_data" }] for the RSI: no [t], no [rsi]. *)
Definition rsi_no_data : responses :=
  {| resp_profile := resp_profile all_ok;
     resp_quote := resp_quote all_ok; resp_metrics := resp_metrics all_ok;
     resp_candles := resp_candles all_ok;
     resp_rsi := HttpResponse true (Some {| rsi_t := js_undefined; rsi := js_undefined |});
     resp_macd := resp_macd all_ok; resp_news := resp_news all_ok |}.

(** A page as loaded, and a dashboard that shows an earlier render for MSFT
    with a saved key, idle, the user having typed another ticker. *)
Definition blank_page : dom_state :=
  {| tickerInput := "AAPL"; apiKeyInput := EmptyString; submitBtnText := "Load Data";
     submitBtnDisabled := false; locked := false; profileSection := None;
     metricsSection := None; newsSection := None; statusLog := [] |}.

Definition earlier_render : dashboard :=
  {| state := {| apiKey := Some "token"%string; currentTicker := "MSFT"; isLoading := false |};
     dom := {| tickerInput := "aapl"; apiKeyInput := "token";
               submitBtnText := "Load Data"; submitBtnDisabled := false; locked := false;
               profileSection :=
                 Some {| companyName := "Microsoft Corp"; companyTicker := "MSFT";
                         companyLogo := EmptyString; priceChartTitle := "Microsoft Corp Daily Chart";
                         industry_text := "Technology";
                         website_href := "https://www.microsoft.com/";
                         website_text := "https://www.microsoft.com/";
                         exchange_text := "NASDAQ" |};
               metricsSection := None; newsSection := Some [];
               statusLog := [] |};
     series := {| candlestick := []; volume := [];
                  sma50 := [{| vp_time := Some 1690000000; vp_value := Some 330%float |}];
                  sma200 := []; series_rsi := []; macdLine := []; macdSignal := [];
                  series_macdHist := [] |};
     alerts := [];
     localStorage := Some "token"%string |}.

(** The page of a returning user, right after [initialize]: a key was
    stored, the first cycle is in flight. *)
Definition loading_page : system :=
  initialize (script_loaded blank_page (Some "token"%string)).

(** [earlier_render] once the user has asked for a new load: suspended at the [await]. *)
Definition earlier_render_loading : dashboard :=
  fst (fetchAndDisplayDashboard_start earlier_render).

(** The bundle the orchestrator assembles from [rsi_no_data]. *)
Definition rsi_no_data_bundle : bundle :=
  {| data_profile := sample_profile; data_quote := sample_quote;
     data_metrics := sample_metrics; data_candles := sample_candles;
     data_rsi := {| rsi_t := js_undefined; rsi := js_undefined |};
     data_macd := sample_macd; data_news := sample_news |}.

(** What the orchestrator's promise settles with on [all_ok]. *)
Definition outcome_of_all_ok : completion bundle := on_all_fulfilled all_ok.

(** Sixty daily bars: timestamps a day apart, closes 100, 101, ..., 159. *)
Definition daily_times : list Z := map (fun i => 1700000000 + 86400 * i) (zseq 0 60).

Definition daily_closes : list float := map num_of_Z (zseq 100 60).

Definition daily_candles : candles_payload :=
  {| c_s := js_val "ok"%string; c_t := js_val daily_times;
     c_o := js_val daily_closes; c_h := js_val daily_closes;
     c_l := js_val daily_closes; c_c := js_val daily_closes;
     c_v := js_val daily_closes |}.

(** Seven good answers with the sixty daily bars. *)
Definition daily_ok : responses :=
  {| resp_profile := resp_profile all_ok;
     resp_quote := resp_quote all_ok; resp_metrics := resp_metrics all_ok;
     resp_candles := HttpResponse true (Some daily_candles);
     resp_rsi := resp_rsi all_ok;
     resp_macd := resp_macd all_ok; resp_news := resp_news all_ok |}.

(** Whether a property holds a value: it is neither [undefined] nor [null]. *)
Definition present {A : Type} (x : nullable A) : bool := negb (js_not x).

(** The bundle assembled from [all_ok], and the one with the sixty daily bars. *)
Definition sample_bundle : bundle :=
  {| data_profile := sample_profile; data_quote := sample_quote;
     data_metrics := sample_metrics; data_candles := sample_candles;
     data_rsi := sample_rsi; data_macd := sample_macd;
     data_news := sample_news |}.

Definition daily_bundle : bundle :=
  {| data_profile := sample_profile; data_quote := sample_quote;
     data_metrics := sample_metrics; data_candles := daily_candles;
     data_rsi := sample_rsi; data_macd := sample_macd;
     data_news := sample_news |}.




(** What a cycle leaves alone whatever happens: the script's [state], the
    alerts, the stored key, the two inputs, the button and the lock; the log
    only gets new entries on top. *)
Definition writes_render_only (d d' : dashboard) : Prop :=
  state d' = state d /\
  alerts d' = alerts d /\
  localStorage d' = localStorage d /\
  tickerInput (dom d') = tickerInput (dom d) /\
  apiKeyInput (dom d') = apiKeyInput (dom d) /\
  submitBtnText (dom d') = submitBtnText (dom d) /\
  submitBtnDisabled (dom d') = submitBtnDisabled (dom d) /\
  locked (dom d') = locked (dom d) /\
  exists entries, statusLog (dom d') = entries ++ statusLog (dom d).


(** While a cycle is in flight, the current ticker is the symbol of the
    seven requests issued last. *)
Definition ticker_inv (sys : system) : Prop :=
  isLoading (state (dash sys)) = true ->
  exists older key,
    issued sys = older ++ fetchAllEndpoints_requests (currentTicker (state (dash sys))) key.

(** The log, the alerts and the requests of [sys'] extend those of [sys]. *)
Definition history_grows (sys sys' : system) : Prop :=
  (exists entries,
     statusLog (dom (dash sys')) = entries ++ statusLog (dom (dash sys))) /\
  (exists shown, alerts (dash sys') = shown ++ alerts (dash sys)) /\
  (exists requests, issued sys' = issued sys ++ requests).

(** * Properties *)

(** ** Arrays and loops *)

Lemma alength_nonneg {A : Type} (a : list A) : 0 <= alength a.
Proof. unfold alength. lia. Qed.

Lemma aget_nat {A : Type} (a : list A) (n : nat) :
  aget a (Z.of_nat n) = nth_error a n.
Proof.
  unfold aget.
  destruct (Z.ltb_spec (Z.of_nat n) 0) as [Hneg | _]; [lia |].
  now rewrite Nat2Z.id.
Qed.

Lemma zseq_length (lo : Z) (n : nat) : List.length (zseq lo n) = n.
Proof.
  revert lo. induction n as [| n IH]; intros lo; simpl; [reflexivity |].
  now rewrite IH.
Qed.

Lemma zseq_nth (n : nat) : forall (lo : Z) (k : nat),
  (k < n)%nat -> nth_error (zseq lo n) k = Some (lo + Z.of_nat k).
Proof.
  induction n as [| n IH]; intros lo k Hk; [lia |].
  destruct k as [| k]; simpl.
  - f_equal. lia.
  - rewrite IH by lia. f_equal. lia.
Qed.

(** A loop that only pushes one value per turn builds the image of its indices. *)
Lemma for_up_push {B : Type} (f : Z -> B) (n : nat) : forall (i : Z) (acc : list B),
  for_up n i (fun i results => results ++ [f i]) acc = acc ++ map f (zseq i n).
Proof.
  induction n as [| n IH]; intros i acc; simpl.
  - now rewrite app_nil_r.
  - rewrite IH, <- app_assoc. reflexivity.
Qed.

Lemma firstn_snoc {A : Type} (m : nat) : forall (w : list A) (x : A),
  nth_error w m = Some x -> firstn (S m) w = firstn m w ++ [x].
Proof.
  induction m as [| m IH]; intros w x Hx; destruct w as [| y w]; try discriminate.
  - simpl in Hx. injection Hx as ->. reflexivity.
  - simpl in Hx. change (y :: firstn (S m) w = y :: (firstn m w ++ [x])).
    now rewrite (IH w x Hx).
Qed.

Lemma fsum_fold (w : list float) :
  fsum w = fold_left add (rev w) 0%float.
Proof.
  induction w as [| x r IH]; simpl; [reflexivity |].
  rewrite fold_left_app. simpl. now rewrite IH.
Qed.

(** The inner loop reads the [m] bars that end at index [i], newest first. *)
Lemma inner_loop_fold (data : list float) (i : Z) (k : nat) (m : nat) :
  forall (j : Z) (acc : float),
    (k + m <= List.length data)%nat ->
    i - j = Z.of_nat (k + m) - 1 ->
    for_up m j (fun j sum => js_add sum (aget data (i - j))) acc
    = fold_left add (rev (firstn m (skipn k data))) acc.
Proof.
  induction m as [| m IH]; intros j acc Hlen Hij; [reflexivity |].
  assert (Hget : exists x, nth_error data (k + m) = Some x).
  { destruct (nth_error data (k + m)) as [x |] eqn:E; [now exists x |].
    apply nth_error_None in E. lia. }
  destruct Hget as [x Hx].
  cbn [for_up].
  replace (i - j) with (Z.of_nat (k + m)) by lia.
  rewrite aget_nat, Hx. cbn [js_add].
  rewrite (firstn_snoc m (skipn k data) x) by (now rewrite nth_error_skipn).
  rewrite rev_app_distr. cbn [rev app fold_left].
  apply IH; lia.
Qed.

Lemma window_length (s : list float) (k period : Z) :
  0 <= k -> 0 <= period -> k + period <= alength s ->
  alength (window s k period) = period.
Proof.
  unfold window, alength. intros Hk Hp Hlen.
  rewrite length_firstn, length_skipn. lia.
Qed.

(** The window holds the bars [s[k]], ..., [s[k+period-1]], in this order. *)
Lemma window_get (s : list float) (k period j : Z) :
  0 <= k -> 0 <= j < period ->
  aget (window s k period) j = aget s (k + j).
Proof.
  intros Hk Hj. unfold window.
  rewrite <- (Z2Nat.id j) at 1 by lia. rewrite aget_nat.
  rewrite nth_error_firstn.
  destruct (Nat.ltb_spec (Z.to_nat j) (Z.to_nat period)) as [_ | Hge]; [| lia].
  rewrite nth_error_skipn.
  rewrite <- aget_nat. f_equal. lia.
Qed.

Lemma window_sum_fsum (s : list float) (period k : Z) :
  0 <= k -> 0 <= period -> k + period <= alength s ->
  window_sum s period (k + period - 1) = fsum (window s k period).
Proof.
  intros Hk Hp Hlen. unfold window_sum, for_range, window.
  rewrite fsum_fold. unfold alength in Hlen.
  replace (Z.to_nat (period - 0)) with (Z.to_nat period) by lia.
  apply inner_loop_fold; lia.
Qed.

(** Each turn of the outer loop pushes the mean of the window that ends at [i]. *)
Lemma outer_loop_means (s : list float) (period : Z) (n : nat) :
  0 <= period ->
  forall lo, 0 <= lo -> lo + Z.of_nat n + period - 1 <= alength s ->
    map (fun i => (window_sum s period i / num_of_Z period)%float)
      (zseq (period - 1 + lo) n)
    = map (fun k => mean (window s k period)) (zseq lo n).
Proof.
  intros Hp. induction n as [| n IH]; intros lo Hlo Hn; [reflexivity |].
  cbn [zseq map]. f_equal.
  - unfold mean. rewrite window_length by lia.
    replace (period - 1 + lo) with (lo + period - 1) by lia.
    now rewrite window_sum_fsum by lia.
  - replace (period - 1 + lo + 1) with (period - 1 + (lo + 1)) by lia.
    apply IH; lia.
Qed.

(** Closed form of [calculateSMA] on an array at least [period] long. *)
Lemma calculateSMA_map (s : list float) (period : Z) :
  1 <= period -> period <= alength s ->
  calculateSMA (js_val s) period
  = Normal (map (fun k => mean (window s k period))
              (zseq 0 (Z.to_nat (alength s - period + 1)))).
Proof.
  intros Hp Hlen. unfold calculateSMA. cbn [js_not get_length bind].
  destruct (Z.ltb_spec (alength s) period) as [Hlt | _]; [lia |].
  f_equal. unfold for_range. rewrite for_up_push. cbn [app].
  replace (Z.to_nat (alength s - (period - 1))) with (Z.to_nat (alength s - period + 1))
    by lia.
  replace (period - 1) with (period - 1 + 0) at 1 by lia.
  apply outer_loop_means; lia.
Qed.

(** ** Indicator engine *)

(** C1. For every array [s] of close prices and every integer [period >= 1]
    with [s.length >= period], [calculateSMA(s, period)] returns normally an
    array of [s.length - period + 1] numbers whose element [k] is the
    arithmetic mean of the bars [s[k .. k+period-1]] (their floating-point sum
    divided by [period]); the elements come in order of increasing [k]. *)
Theorem calculateSMA_window_means (s : list float) (period : Z) :
  1 <= period -> period <= alength s ->
  exists results,
    calculateSMA (js_val s) period = Normal results /\
    alength results = alength s - period + 1 /\
    forall k, 0 <= k < alength s - period + 1 ->
      aget results k = Some (mean (window s k period)).
Proof.
  intros Hp Hlen.
  eexists. split; [apply calculateSMA_map; assumption |]. split.
  - unfold alength at 1. rewrite length_map, zseq_length. lia.
  - intros k Hk.
    rewrite <- (Z2Nat.id k) at 1 by lia. rewrite aget_nat.
    rewrite nth_error_map, zseq_nth by lia.
    cbn [option_map]. do 3 f_equal. lia.
Qed.

Lemma calculateSMA_window_means_witness :
  exists results,
    calculateSMA (js_val [1; 2; 3; 4; 5; 7]%float) 2 = Normal results /\
    alength results = alength [1; 2; 3; 4; 5; 7]%float - 2 + 1 /\
    forall k, 0 <= k < alength [1; 2; 3; 4; 5; 7]%float - 2 + 1 ->
      aget results k = Some (mean (window [1; 2; 3; 4; 5; 7]%float k 2)).
Proof.
  apply (calculateSMA_window_means [1; 2; 3; 4; 5; 7]%float 2).
  - lia.
  - vm_compute. discriminate.
Defined.

(** The moving average of six closes over two bars, as the script computes it. *)
Example calculateSMA_six_closes :
  calculateSMA (js_val [1; 2; 3; 4; 5; 7]%float) 2
  = Normal [1.5; 2.5; 3.5; 4.5; 6]%float.
Proof. reflexivity. Qed.

(** C6. For every [period >= 1] and every array [s] shorter than [period],
    [calculateSMA(s, period)] completes normally with the empty array. *)
Theorem calculateSMA_insufficient_data (s : list float) (period : Z) :
  1 <= period -> alength s < period ->
  calculateSMA (js_val s) period = Normal [].
Proof.
  intros _ Hlen. unfold calculateSMA. cbn [js_not get_length bind].
  destruct (Z.ltb_spec (alength s) period) as [_ | Hge]; [reflexivity | lia].
Qed.

Lemma calculateSMA_insufficient_data_witness :
  calculateSMA (js_val [10; 11; 12]%float) 50 = Normal [].
Proof.
  apply (calculateSMA_insufficient_data [10; 11; 12]%float 50).
  - lia.
  - vm_compute. reflexivity.
Defined.

(** C10. On an absent input, [null] or [undefined], [calculateSMA] completes
    normally with the empty array for every period: the guard [!data] is
    evaluated before [data.length], which would throw. *)
Theorem calculateSMA_absent_input (period : Z) :
  calculateSMA js_null period = Normal [] /\
  calculateSMA js_undefined period = Normal [] /\
  get_length (@js_null (list float)) = Throw TypeError /\
  get_length (@js_undefined (list float)) = Throw TypeError.
Proof. repeat split. Qed.

(** ** Series aligner *)

Lemma map_from_normal {A B : Type} (f : A -> Z -> completion B) (g : A -> Z -> B)
  (a : list A) :
  (forall x i, f x i = Normal (g x i)) ->
  forall i, map_from i f a = Normal (imap i g a).
Proof.
  intros Hf. induction a as [| x r IH]; intros i; [reflexivity |].
  cbn [map_from imap]. rewrite Hf. cbn [bind]. now rewrite IH.
Qed.

Lemma imap_length {A B : Type} (g : A -> Z -> B) (a : list A) :
  forall i, List.length (imap i g a) = List.length a.
Proof.
  induction a as [| x r IH]; intros i; simpl; [reflexivity |]. now rewrite IH.
Qed.

Lemma imap_nth {A B : Type} (g : A -> Z -> B) (a : list A) :
  forall (i : Z) (k : nat) (x : A),
    nth_error a k = Some x ->
    nth_error (imap i g a) k = Some (g x (i + Z.of_nat k)).
Proof.
  induction a as [| y r IH]; intros i k x Hx; destruct k as [| k]; try discriminate.
  - simpl in Hx. injection Hx as ->. simpl. now rewrite Z.add_0_r.
  - simpl in Hx. cbn [imap nth_error]. rewrite (IH (i + 1) k x Hx).
    do 2 f_equal. lia.
Qed.

Lemma aget_some_range {A : Type} (a : list A) (k : Z) (x : A) :
  aget a k = Some x -> 0 <= k /\ nth_error a (Z.to_nat k) = Some x.
Proof.
  unfold aget. destruct (Z.ltb_spec k 0) as [Hneg | Hpos]; [discriminate |].
  intros Hn. split; [lia | exact Hn].
Qed.

Lemma imap_aget {A B : Type} (g : A -> Z -> B) (a : list A) (k : Z) (x : A) :
  aget a k = Some x -> aget (imap 0 g a) k = Some (g x k).
Proof.
  intros H. destruct (aget_some_range a k x H) as [Hk Hn].
  rewrite <- (Z2Nat.id k) at 1 by lia. rewrite aget_nat.
  rewrite (imap_nth g a 0 _ x Hn). do 2 f_equal. lia.
Qed.

(** With [candles.t] an array, the moving-average points are built without
    a throw, one point per value. *)
Lemma smaPlotData_imap (candles : candles_payload) (ts : list Z) (offset : Z)
  (sma : list float) :
  c_t candles = js_val ts ->
  smaPlotData candles offset sma
  = Normal (imap 0 (fun value index =>
              {| vp_time := aget ts (index + offset); vp_value := Some value |}) sma).
Proof.
  intros Ht. unfold smaPlotData. apply map_from_normal.
  intros x i. now rewrite Ht.
Qed.

(** C2. For every array of moving-average values and every array of candle
    timestamps, point [k] of the 50-bar series takes the time
    [t[k + 50 - 1]] and point [k] of the 200-bar series the time
    [t[k + 200 - 1]], each with the value [k]; the first points take
    [t[49]] and [t[199]]. *)
Theorem sma_points_take_offset_time (candles : candles_payload) (ts : list Z)
  (sma50Data sma200Data : list float) :
  c_t candles = js_val ts ->
  exists points50 points200,
    sma50PlotData candles sma50Data = Normal points50 /\
    sma200PlotData candles sma200Data = Normal points200 /\
    alength points50 = alength sma50Data /\
    alength points200 = alength sma200Data /\
    (forall k value, aget sma50Data k = Some value ->
       aget points50 k
       = Some {| vp_time := aget ts (k + 50 - 1); vp_value := Some value |}) /\
    (forall k value, aget sma200Data k = Some value ->
       aget points200 k
       = Some {| vp_time := aget ts (k + 200 - 1); vp_value := Some value |}) /\
    (forall value, aget sma50Data 0 = Some value ->
       option_map vp_time (aget points50 0) = Some (aget ts 49)) /\
    (forall value, aget sma200Data 0 = Some value ->
       option_map vp_time (aget points200 0) = Some (aget ts 199)).
Proof.
  intros Ht. unfold sma50PlotData, sma200PlotData.
  rewrite !(smaPlotData_imap candles ts) by assumption.
  do 2 eexists. split; [reflexivity |]. split; [reflexivity |].
  unfold alength. rewrite !imap_length.
  repeat split.
  - intros k value Hk. rewrite (imap_aget _ _ k value Hk).
    do 3 f_equal. lia.
  - intros k value Hk. rewrite (imap_aget _ _ k value Hk).
    do 3 f_equal. lia.
  - intros value H0. now rewrite (imap_aget _ _ 0 value H0).
  - intros value H0. now rewrite (imap_aget _ _ 0 value H0).
Qed.

Lemma sma_points_take_offset_time_witness :
  exists points50 points200,
    sma50PlotData daily_candles [124.5; 125.5]%float = Normal points50 /\
    sma200PlotData daily_candles [] = Normal points200 /\
    alength points50 = alength [124.5; 125.5]%float /\
    alength points200 = alength (@nil float) /\
    (forall k value, aget [124.5; 125.5]%float k = Some value ->
       aget points50 k
       = Some {| vp_time := aget daily_times (k + 50 - 1); vp_value := Some value |}) /\
    (forall k value, aget (@nil float) k = Some value ->
       aget points200 k
       = Some {| vp_time := aget daily_times (k + 200 - 1); vp_value := Some value |}) /\
    (forall value, aget [124.5; 125.5]%float 0 = Some value ->
       option_map vp_time (aget points50 0) = Some (aget daily_times 49)) /\
    (forall value, aget (@nil float) 0 = Some value ->
       option_map vp_time (aget points200 0) = Some (aget daily_times 199)).
Proof.
  exact (sma_points_take_offset_time daily_candles daily_times
           [124.5; 125.5]%float [] eq_refl).
Defined.

(** Sixty bars: the 50-bar average has eleven values, the first is the mean
    of the closes 100 to 149 and is drawn at the time of bar 49. *)
Example sixty_bars_sma50 :
  option_map (fun r => (alength r, aget r 0)) (normal_value (calculateSMA (js_val daily_closes) 50))
  = Some (11, Some 124.5%float) /\
  option_map (fun pts => option_map vp_time (aget pts 0))
    (normal_value (sma50PlotData daily_candles [124.5]%float))
  = Some (Some (Some (1700000000 + 86400 * 49))).
Proof. split; vm_compute; reflexivity. Qed.

(** Comparison of numbers: two numbers that are equal ([==]) are not in the
    relation [>]. *)
Lemma SFcompare_Eq_sym (a b : spec_float) :
  SFcompare a b = Some Eq -> SFcompare b a = Some Eq.
Proof.
  destruct a as [sa | sa | | sa ma ea], b as [sb | sb | | sb mb eb];
    cbn [SFcompare]; try discriminate; try reflexivity;
    try (destruct sa; discriminate); try (destruct sb; discriminate).
  - destruct sa, sb; try discriminate; reflexivity.
  - destruct sa, sb; try discriminate;
      (destruct (Z.compare_spec ea eb) as [-> | Hlt | Hgt]; try discriminate;
       rewrite Z.compare_refl;
       change (Pos.compare_cont Eq ma mb) with (Pos.compare ma mb);
       destruct (Pos.compare_spec ma mb) as [-> | Hlt | Hgt]; try discriminate;
       change (Pos.compare_cont Eq mb mb) with (Pos.compare mb mb);
       now rewrite Pos.compare_refl).
Qed.

Lemma number_eq_not_gt (x y : float) :
  (x =? y)%float = true -> (y <? x)%float = false.
Proof.
  rewrite eqb_spec, ltb_spec. unfold SFeqb, SFltb. intros H.
  destruct (SFcompare (Prim2SF x) (Prim2SF y)) as [[ | | ] |] eqn:E; try discriminate.
  now rewrite (SFcompare_Eq_sym _ _ E).
Qed.

Lemma up_down_differ : up_color <> down_color.
Proof. discriminate. Qed.

(** With the arrays it reads present, [volumeData] is built without a throw. *)
Lemma volumeData_imap (candles : candles_payload) (ts : list Z)
  (opens closes volumes : list float) :
  c_t candles = js_val ts -> c_o candles = js_val opens ->
  c_c candles = js_val closes -> c_v candles = js_val volumes ->
  volumeData candles
  = Normal (imap 0 (fun time index =>
              {| cp_time := time; cp_value := aget volumes index;
                 cp_color := if js_gt (aget closes index) (aget opens index)
                             then up_color else down_color |}) ts).
Proof.
  intros Ht Ho Hc Hv. unfold volumeData. rewrite Ht. cbn [js_map].
  apply map_from_normal. intros x i. now rewrite Ho, Hc, Hv.
Qed.

(** C9. For every candle series, point [i] of the volume series has the "up"
    color exactly when [c[i] > o[i]] and the "down" color otherwise; when
    [c[i] == o[i]] the color is "down"; there is no third color. *)
Theorem volume_color_up_iff_close_above_open (candles : candles_payload) (ts : list Z)
  (opens closes volumes : list float) :
  c_t candles = js_val ts -> c_o candles = js_val opens ->
  c_c candles = js_val closes -> c_v candles = js_val volumes ->
  exists points,
    volumeData candles = Normal points /\
    alength points = alength ts /\
    forall i time close_i open_i,
      aget ts i = Some time -> aget closes i = Some close_i -> aget opens i = Some open_i ->
      exists p,
        aget points i = Some p /\
        cp_time p = time /\
        cp_value p = aget volumes i /\
        (cp_color p = up_color <-> (open_i <? close_i)%float = true) /\
        (cp_color p = down_color <-> (open_i <? close_i)%float = false) /\
        ((close_i =? open_i)%float = true -> cp_color p = down_color) /\
        (cp_color p = up_color \/ cp_color p = down_color).
Proof.
  intros Ht Ho Hc Hv.
  rewrite (volumeData_imap candles ts opens closes volumes Ht Ho Hc Hv).
  eexists. split; [reflexivity |]. split.
  - unfold alength. now rewrite imap_length.
  - intros i time close_i open_i Hti Hci Hoi.
    eexists. split; [apply imap_aget; exact Hti |].
    cbn [cp_time cp_value cp_color]. rewrite Hci, Hoi. cbn [js_gt].
    split; [reflexivity |]. split; [reflexivity |].
    pose proof up_down_differ as Hne.
    destruct (open_i <? close_i)%float eqn:E.
    + repeat split; try congruence; try (now left).
      intros Heq. apply number_eq_not_gt in Heq. congruence.
    + repeat split; try congruence; now right.
Qed.

Lemma volume_color_up_iff_close_above_open_witness :
  exists points,
    volumeData sample_candles = Normal points /\
    alength points = alength [1700000000; 1700086400; 1700172800] /\
    forall i time close_i open_i,
      aget [1700000000; 1700086400; 1700172800] i = Some time ->
      aget [11; 12; 10.5]%float i = Some close_i ->
      aget [10; 12; 11]%float i = Some open_i ->
      exists p,
        aget points i = Some p /\
        cp_time p = time /\
        cp_value p = aget [1000; 2000; 1500]%float i /\
        (cp_color p = up_color <-> (open_i <? close_i)%float = true) /\
        (cp_color p = down_color <-> (open_i <? close_i)%float = false) /\
        ((close_i =? open_i)%float = true -> cp_color p = down_color) /\
        (cp_color p = up_color \/ cp_color p = down_color).
Proof.
  exact (volume_color_up_iff_close_above_open sample_candles
           [1700000000; 1700086400; 1700172800] [10; 12; 11]%float
           [11; 12; 10.5]%float [1000; 2000; 1500]%float
           eq_refl eq_refl eq_refl eq_refl).
Defined.

(** Close above open, close equal to open, close below open. *)
Example volume_colors_of_three_bars :
  option_map (map cp_color) (normal_value (volumeData sample_candles))
  = Some [up_color; down_color; down_color].
Proof. reflexivity. Qed.

(** ** Fetch orchestrator *)

Lemma endpoint_eqb_eq (a b : endpoint) : endpoint_eqb a b = true <-> a = b.
Proof. destruct a, b; simpl; split; intros H; try reflexivity; discriminate. Qed.

Lemma endpoints_complete (key : endpoint) : In key endpoints.
Proof. destruct key; simpl; tauto. Qed.

Lemma all_settled_spec (p : orchestrator) :
  all_settled p = true <-> forall key, has_settled key p = true.
Proof.
  unfold all_settled. rewrite forallb_forall. split.
  - intros H key. apply H, endpoints_complete.
  - intros H key _. apply H.
Qed.

Lemma has_settled_cons (key k : endpoint) (l : list endpoint) (r : option (completion bundle)) :
  has_settled k {| settled := key :: l; outcome := r |}
  = endpoint_eqb k key || has_settled k {| settled := l; outcome := r |}.
Proof. reflexivity. Qed.

Section Run.

(** The answers of the network are fixed; the order of settlement is not. *)
Variable env : responses.

Lemma orchestrator_inv_start : orchestrator_inv env orchestrator_start.
Proof. split; [reflexivity | intros key H; discriminate]. Qed.

Lemma has_settled_mono (key k : endpoint) (p : orchestrator)
  (r : option (completion bundle)) :
  has_settled k p = true ->
  has_settled k {| settled := key :: settled p; outcome := r |} = true.
Proof.
  intros H. unfold has_settled in *. cbn [settled existsb]. rewrite H. apply orb_true_r.
Qed.

Lemma has_settled_new (key : endpoint) (p : orchestrator)
  (r : option (completion bundle)) :
  has_settled key {| settled := key :: settled p; outcome := r |} = true.
Proof.
  rewrite has_settled_cons. now rewrite (proj2 (endpoint_eqb_eq key key) eq_refl).
Qed.

Lemma all_settled_mono (key : endpoint) (p : orchestrator)
  (r : option (completion bundle)) :
  all_settled p = true ->
  all_settled {| settled := key :: settled p; outcome := r |} = true.
Proof.
  rewrite !all_settled_spec. intros H k. apply has_settled_mono, H.
Qed.

(** One settlement keeps the invariant: by cases on whether the request had
    settled, on the promise's state and on how the request settles. *)
Lemma orchestrator_inv_step (key : endpoint) (p : orchestrator) :
  orchestrator_inv env p -> orchestrator_inv env (on_settle env key p).
Proof.
  intros Hinv. unfold on_settle.
  destruct (has_settled key p) eqn:Hkey; [exact Hinv |].
  unfold orchestrator_inv in *.
  destruct (outcome p) as [r |] eqn:Hout; cbn [outcome].
  - destruct Hinv as [(k & e & Hk & Hrej & Hr) | (Hall & Hnone & Hr)].
    + left. exists k, e. repeat split; try assumption. now apply has_settled_mono.
    + right. repeat split; try assumption. now apply all_settled_mono.
  - destruct Hinv as [Hpending Hful].
    destruct (request_rejection env key) as [e |] eqn:Hrej; cbn [outcome settled].
    + left. exists key, e. repeat split; try assumption. apply has_settled_new.
    + assert (Hful' : forall k,
                has_settled k {| settled := key :: settled p; outcome := None |} = true ->
                request_rejection env k = None).
      { intros k. rewrite has_settled_cons. intros Hk.
        apply orb_true_iff in Hk. destruct Hk as [Hk | Hk].
        - apply endpoint_eqb_eq in Hk. now subst k.
        - apply Hful. exact Hk. }
      destruct (all_settled {| settled := key :: settled p; outcome := None |}) eqn:Hall;
        cbn [outcome settled].
      * right. repeat split.
        -- exact Hall.
        -- intros k. apply Hful'. now apply all_settled_spec.
      * split; [exact Hall | exact Hful'].
Qed.

Lemma orchestrator_inv_run (schedule : list endpoint) :
  forall p, orchestrator_inv env p ->
    orchestrator_inv env (fold_left (fun p key => on_settle env key p) schedule p).
Proof.
  induction schedule as [| key rest IH]; intros p Hp; [exact Hp |].
  cbn [fold_left]. apply IH, orchestrator_inv_step, Hp.
Qed.

Lemma fetchAllEndpoints_inv (schedule : list endpoint) :
  orchestrator_inv env (fetchAllEndpoints env schedule).
Proof. apply orchestrator_inv_run, orchestrator_inv_start. Qed.

Lemma fetchAllEndpoints_snoc (schedule : list endpoint) (key : endpoint) :
  fetchAllEndpoints env (schedule ++ [key])
  = on_settle env key (fetchAllEndpoints env schedule).
Proof. unfold fetchAllEndpoints. now rewrite fold_left_app. Qed.

(** The settled requests only grow, and a request that settles is recorded. *)
Lemma on_settle_settled (key k : endpoint) (p : orchestrator) :
  has_settled k (on_settle env key p) = endpoint_eqb k key || has_settled k p.
Proof.
  unfold on_settle. destruct (has_settled key p) eqn:Hkey.
  - destruct (endpoint_eqb k key) eqn:Hk; [| reflexivity].
    apply endpoint_eqb_eq in Hk. now subst k.
  - destruct (outcome p); [apply has_settled_cons |].
    destruct (request_rejection env key); [apply has_settled_cons |].
    destruct (all_settled _); apply has_settled_cons.
Qed.

Lemma has_settled_run (schedule : list endpoint) (k : endpoint) :
  forall p,
    has_settled k p = true \/ In k schedule ->
    has_settled k (fold_left (fun p key => on_settle env key p) schedule p) = true.
Proof.
  induction schedule as [| key rest IH]; intros p [Hk | Hin]; cbn [fold_left].
  - exact Hk.
  - destruct Hin.
  - apply IH. left. rewrite on_settle_settled, Hk. apply orb_true_r.
  - apply IH. destruct Hin as [-> | Hin]; [left | now right].
    rewrite on_settle_settled. now rewrite (proj2 (endpoint_eqb_eq k k) eq_refl).
Qed.

(** A run over a schedule that names every endpoint ends with every request settled. *)
Lemma complete_schedule_settles_all (schedule : list endpoint) :
  (forall key, In key schedule) -> all_settled (fetchAllEndpoints env schedule) = true.
Proof.
  intros Hall. apply all_settled_spec. intros key.
  apply has_settled_run. right. apply Hall.
Qed.

End Run.

(** A request's promise rejects for one of three reasons. *)
Lemma request_promise_rejects {A : Type} (key : endpoint) (r : response A) (e : js_error) :
  request_promise key r = Throw e <->
  (r = NetworkFailure /\ e = FetchFailed) \/
  (exists body, r = HttpResponse false body /\
     e = Error ("Network response for " ++ endpoint_name key ++ " was not ok.")) \/
  (r = HttpResponse true None /\ e = SyntaxError).
Proof.
  split.
  - destruct r as [| [|] [data |]]; cbn; intros H; try discriminate;
      injection H as <-; eauto.
  - intros [[-> ->] | [(body & -> & ->) | [-> ->]]]; reflexivity.
Qed.

Lemma status_not_ok_false (status : nullable string) :
  status_not_ok status = false <-> status = js_val "ok"%string.
Proof.
  destruct status as [| | x]; simpl; split; intros H; try discriminate.
  - apply negb_false_iff, String.eqb_eq in H. now subst.
  - injection H as ->. reflexivity.
Qed.

(** A bundle comes out of the callback only from seven decoded payloads with
    the candles status ['ok']. *)
Lemma on_all_fulfilled_normal (env : responses) (b : bundle) :
  on_all_fulfilled env = Normal b ->
  request_promise key_profile (resp_profile env) = Normal (data_profile b) /\
  request_promise key_quote (resp_quote env) = Normal (data_quote b) /\
  request_promise key_metrics (resp_metrics env) = Normal (data_metrics b) /\
  request_promise key_candles (resp_candles env) = Normal (data_candles b) /\
  request_promise key_rsi (resp_rsi env) = Normal (data_rsi b) /\
  request_promise key_macd (resp_macd env) = Normal (data_macd b) /\
  request_promise key_news (resp_news env) = Normal (data_news b) /\
  c_s (data_candles b) = js_val "ok"%string.
Proof.
  unfold on_all_fulfilled, reduce_results.
  destruct (request_promise key_profile (resp_profile env)); [| discriminate].
  destruct (request_promise key_quote (resp_quote env)); [| discriminate].
  destruct (request_promise key_metrics (resp_metrics env)); [| discriminate].
  destruct (request_promise key_candles (resp_candles env)) as [candles |]; [| discriminate].
  destruct (request_promise key_rsi (resp_rsi env)); [| discriminate].
  destruct (request_promise key_macd (resp_macd env)); [| discriminate].
  destruct (request_promise key_news (resp_news env)); [| discriminate].
  cbn [bind data_candles].
  destruct (status_not_ok (c_s candles)) eqn:Hs; [discriminate |].
  intros H. injection H as <-. cbn.
  apply status_not_ok_false in Hs. repeat split; assumption.
Qed.

(** C3. In every run of the orchestrator, if one of the seven requests fails
    (its [fetch] rejects, its status is not a success, or its body does not
    decode), the orchestrator's promise never holds a bundle, and once the
    seven requests have settled it is rejected, whatever the other six
    answer; a bundle comes only with the seven payloads, each the decoded
    answer of its request. *)
Theorem one_failed_request_fails_the_bundle (env : responses) (schedule : list endpoint) :
  (forall key e,
     request_rejection env key = Some e ->
     (forall b, outcome (fetchAllEndpoints env schedule) <> Some (Normal b)) /\
     (has_settled key (fetchAllEndpoints env schedule) = true ->
      exists e', outcome (fetchAllEndpoints env schedule) = Some (Throw e')) /\
     (all_settled (fetchAllEndpoints env schedule) = true ->
      exists e', outcome (fetchAllEndpoints env schedule) = Some (Throw e'))) /\
  (forall b,
     outcome (fetchAllEndpoints env schedule) = Some (Normal b) ->
     (forall key, request_rejection env key = None) /\
     request_promise key_profile (resp_profile env) = Normal (data_profile b) /\
     request_promise key_quote (resp_quote env) = Normal (data_quote b) /\
     request_promise key_metrics (resp_metrics env) = Normal (data_metrics b) /\
     request_promise key_candles (resp_candles env) = Normal (data_candles b) /\
     request_promise key_rsi (resp_rsi env) = Normal (data_rsi b) /\
     request_promise key_macd (resp_macd env) = Normal (data_macd b) /\
     request_promise key_news (resp_news env) = Normal (data_news b)).
Proof.
  pose proof (fetchAllEndpoints_inv env schedule) as Hinv.
  unfold orchestrator_inv in Hinv.
  split.
  - intros key e Hfail.
    assert (Hsettled : has_settled key (fetchAllEndpoints env schedule) = true ->
              exists e', outcome (fetchAllEndpoints env schedule) = Some (Throw e')).
    { intros Hkey.
      destruct (outcome (fetchAllEndpoints env schedule)) as [r |].
      - destruct Hinv as [(k & e' & _ & _ & Hr) | (_ & Hnone & _)].
        + exists e'. now subst r.
        + rewrite Hnone in Hfail. discriminate.
      - destruct Hinv as [_ Hful]. rewrite (Hful key Hkey) in Hfail. discriminate. }
    split; [| split].
    + intros b Hb. rewrite Hb in Hinv.
      destruct Hinv as [(k & e' & _ & _ & Hr) | (_ & Hnone & _)]; [discriminate |].
      rewrite Hnone in Hfail. discriminate.
    + exact Hsettled.
    + intros Hall. apply Hsettled. now apply all_settled_spec.
  - intros b Hb. rewrite Hb in Hinv.
    destruct Hinv as [(k & e' & _ & _ & Hr) | (_ & Hnone & Hr)]; [discriminate |].
    split; [exact Hnone |].
    symmetry in Hr. apply on_all_fulfilled_normal in Hr. tauto.
Qed.

Lemma one_failed_request_fails_the_bundle_witness :
  request_rejection news_not_ok key_news
  = Some (Error "Network response for news was not ok.") /\
  (forall b, outcome (fetchAllEndpoints news_not_ok endpoints) <> Some (Normal b)) /\
  exists e', outcome (fetchAllEndpoints news_not_ok endpoints) = Some (Throw e').
Proof.
  split; [reflexivity |].
  destruct (proj1 (one_failed_request_fails_the_bundle news_not_ok endpoints)
              key_news (Error "Network response for news was not ok.") eq_refl)
    as (Hnever & Hfails & _).
  split; [exact Hnever | apply Hfails; reflexivity].
Defined.

(** Six requests succeed, the news request answers with a non-success status
    last: the run ends rejected with the error that names it. *)
Example six_succeed_one_fails :
  outcome (fetchAllEndpoints news_not_ok endpoints)
  = Some (Throw (Error "Network response for news was not ok.")).
Proof. reflexivity. Qed.

(** Seven requests succeed with candles status ['ok']: the bundle is assembled. *)
Example seven_succeed :
  outcome (fetchAllEndpoints all_ok endpoints)
  = Some (Normal {| data_profile := sample_profile; data_quote := sample_quote;
                    data_metrics := sample_metrics; data_candles := sample_candles;
                    data_rsi := sample_rsi; data_macd := sample_macd;
                    data_news := sample_news |}).
Proof. reflexivity. Qed.

(** C4. In every run in which the seven requests succeed at the transport
    level, if the status [s] of the candles payload is not ['ok'] the
    orchestrator's promise never holds a bundle and, once the seven requests
    have settled, it is rejected with the candle-data error; and every
    bundle the orchestrator produces has candles status ['ok']. *)
Theorem candles_status_gate (env : responses) (schedule : list endpoint) :
  (forall candles,
     (forall key, request_rejection env key = None) ->
     request_promise key_candles (resp_candles env) = Normal candles ->
     c_s candles <> js_val "ok"%string ->
     (forall b, outcome (fetchAllEndpoints env schedule) <> Some (Normal b)) /\
     (all_settled (fetchAllEndpoints env schedule) = true ->
      outcome (fetchAllEndpoints env schedule)
      = Some (Throw (Error "Failed to fetch historical candle data.")))) /\
  (forall b,
     outcome (fetchAllEndpoints env schedule) = Some (Normal b) ->
     c_s (data_candles b) = js_val "ok"%string).
Proof.
  pose proof (fetchAllEndpoints_inv env schedule) as Hinv.
  unfold orchestrator_inv in Hinv.
  split.
  - intros candles Htransport Hcandles Hstatus.
    assert (Hcallback :
              on_all_fulfilled env = Throw (Error "Failed to fetch historical candle data.")).
    { unfold on_all_fulfilled, reduce_results.
      pose proof (Htransport key_profile) as H1. pose proof (Htransport key_quote) as H2.
      pose proof (Htransport key_metrics) as H3. pose proof (Htransport key_rsi) as H5.
      pose proof (Htransport key_macd) as H6. pose proof (Htransport key_news) as H7.
      cbn [request_rejection] in H1, H2, H3, H5, H6, H7.
      rewrite Hcandles.
      destruct (request_promise key_profile (resp_profile env)); [| discriminate].
      destruct (request_promise key_quote (resp_quote env)); [| discriminate].
      destruct (request_promise key_metrics (resp_metrics env)); [| discriminate].
      destruct (request_promise key_rsi (resp_rsi env)); [| discriminate].
      destruct (request_promise key_macd (resp_macd env)); [| discriminate].
      destruct (request_promise key_news (resp_news env)); [| discriminate].
      cbn [bind data_candles].
      destruct (status_not_ok (c_s candles)) eqn:Hs; [reflexivity |].
      apply status_not_ok_false in Hs. contradiction. }
    split.
    + intros b Hb. rewrite Hb in Hinv.
      destruct Hinv as [(k & e' & _ & _ & Hr) | (_ & _ & Hr)]; [discriminate |].
      rewrite Hcallback in Hr. discriminate.
    + intros Hall.
      destruct (outcome (fetchAllEndpoints env schedule)) as [r |].
      * destruct Hinv as [(k & e' & _ & Hrej & _) | (_ & _ & Hr)].
        -- rewrite Htransport in Hrej. discriminate.
        -- now rewrite Hr, Hcallback.
      * destruct Hinv as [Hpending _]. rewrite Hall in Hpending. discriminate.
  - intros b Hb. rewrite Hb in Hinv.
    destruct Hinv as [(k & e' & _ & _ & Hr) | (_ & _ & Hr)]; [discriminate |].
    symmetry in Hr. apply on_all_fulfilled_normal in Hr. tauto.
Qed.

Lemma candles_status_gate_witness :
  outcome (fetchAllEndpoints candles_no_data endpoints)
  = Some (Throw (Error "Failed to fetch historical candle data.")).
Proof.
  apply (proj1 (candles_status_gate candles_no_data endpoints) no_data_candles).
  - intros key. destruct key; reflexivity.
  - reflexivity.
  - discriminate.
  - reflexivity.
Defined.

(** C8, as the spec words it, fails: [Promise.all] rejects when the first
    request rejects.  Here the profile request fails first; the orchestrator's
    promise is rejected at once, with six requests still in flight. *)
Lemma first_failure_does_not_wait :
  outcome (fetchAllEndpoints profile_down [key_profile]) = Some (Throw FetchFailed) /\
  settled (fetchAllEndpoints profile_down [key_profile]) = [key_profile] /\
  all_settled (fetchAllEndpoints profile_down [key_profile]) = false.
Proof. repeat split. Qed.

(** C8, amended.  One call issues the seven requests, one per endpoint, in
    a single turn, before anything is awaited.  The orchestrator produces a bundle only after every
    one of the seven requests has settled; it produces its failure as soon
    as a request that fails has settled, the first failure giving the reason
    at once whichever requests are still in flight. *)
Theorem orchestrator_fan_out_join (env : responses) (schedule : list endpoint)
  (symbol token : string) :
  map req_key (fetchAllEndpoints_requests symbol token) = endpoints /\
  (forall d d1 requests,
     fetchAndDisplayDashboard_start d = (d1, Some requests) ->
     map req_key requests = endpoints) /\
  outcome orchestrator_start = None /\
  (forall b,
     outcome (fetchAllEndpoints env schedule) = Some (Normal b) ->
     all_settled (fetchAllEndpoints env schedule) = true) /\
  (forall key e,
     request_rejection env key = Some e ->
     has_settled key (fetchAllEndpoints env schedule) = true ->
     exists e', outcome (fetchAllEndpoints env schedule) = Some (Throw e')) /\
  (forall key e,
     outcome (fetchAllEndpoints env schedule) = None ->
     request_rejection env key = Some e ->
     outcome (fetchAllEndpoints env (schedule ++ [key])) = Some (Throw e)).
Proof.
  pose proof (fetchAllEndpoints_inv env schedule) as Hinv.
  unfold orchestrator_inv in Hinv.
  split; [reflexivity |]. split; [| split; [reflexivity |]; split; [| split]].
  - intros d d1 requests Hstart. unfold fetchAndDisplayDashboard_start in Hstart.
    destruct (isLoading (state d) || key_falsy (apiKey (state d))); [discriminate |].
    injection Hstart as _ <-. reflexivity.
  - intros b Hb. rewrite Hb in Hinv.
    destruct Hinv as [(k & e' & _ & _ & Hr) | (Hall & _)]; [discriminate | exact Hall].
  - intros key e Hfail Hkey.
    destruct (outcome (fetchAllEndpoints env schedule)) as [r |].
    + destruct Hinv as [(k & e' & _ & _ & Hr) | (_ & Hnone & _)].
      * exists e'. now subst r.
      * rewrite Hnone in Hfail. discriminate.
    + destruct Hinv as [_ Hful]. rewrite (Hful key Hkey) in Hfail. discriminate.
  - intros key e Hpending Hfail.
    rewrite Hpending in Hinv. destruct Hinv as [_ Hful].
    rewrite fetchAllEndpoints_snoc. unfold on_settle.
    destruct (has_settled key (fetchAllEndpoints env schedule)) eqn:Hkey.
    + rewrite (Hful key Hkey) in Hfail. discriminate.
    + now rewrite Hpending, Hfail.
Qed.

Lemma orchestrator_fan_out_join_witness :
  outcome (fetchAllEndpoints profile_down ([key_quote; key_news] ++ [key_profile]))
  = Some (Throw FetchFailed).
Proof.
  apply (proj2 (proj2 (proj2 (proj2 (proj2
           (orchestrator_fan_out_join profile_down [key_quote; key_news]
              "AAPL" "token"))))) key_profile FetchFailed);
    reflexivity.
Defined.

(** ** Dashboard coordinator *)

(** In a run known to complete without error, the next expression evaluated
    did not throw. *)
Ltac no_throw H :=
  match type of H with
  | context [match ?x with Normal _ => _ | Throw _ => _ end] =>
      let E := fresh "E" in
      destruct x eqn:E; try discriminate H
  end.

(** When [updateChartsUI] completes, the eight series hold the eight point
    sequences it built. *)
Lemma updateChartsUI_completes (data : bundle) (sma50Data sma200Data : list float)
  (d : dashboard) :
  snd (updateChartsUI data sma50Data sma200Data d) = None ->
  exists cd vd rd ml ms mh p50 p200,
    candlestickData (data_candles data) = Normal cd /\
    volumeData (data_candles data) = Normal vd /\
    indicatorData (rsi_t (data_rsi data)) (rsi (data_rsi data)) = Normal rd /\
    indicatorData (macd_t (data_macd data)) (macd (data_macd data)) = Normal ml /\
    indicatorData (macd_t (data_macd data)) (signal (data_macd data)) = Normal ms /\
    macdHistData (data_macd data) = Normal mh /\
    sma50PlotData (data_candles data) sma50Data = Normal p50 /\
    sma200PlotData (data_candles data) sma200Data = Normal p200 /\
    series (fst (updateChartsUI data sma50Data sma200Data d))
    = {| candlestick := cd; volume := vd; sma50 := p50; sma200 := p200;
         series_rsi := rd; macdLine := ml; macdSignal := ms; series_macdHist := mh |}.
Proof.
  intros Hok. unfold updateChartsUI, eval, and_then, exec in *.
  repeat no_throw Hok.
  do 8 eexists. repeat split; reflexivity.
Qed.

Lemma resume_clears_loading (settled_with : completion bundle) (d : dashboard) :
  isLoading (state (fetchAndDisplayDashboard_resume settled_with d)) = false.
Proof.
  unfold fetchAndDisplayDashboard_resume.
  destruct (try_block settled_with d) as [d' [e |]]; reflexivity.
Qed.

(** While the flag is set and a key is saved, a call returns at its guard. *)
Lemma start_while_loading (d : dashboard) :
  isLoading (state d) = true -> key_falsy (apiKey (state d)) = false ->
  fetchAndDisplayDashboard_start d = (d, None).
Proof.
  intros Hl Hk. unfold fetchAndDisplayDashboard_start. now rewrite Hl, Hk.
Qed.

Lemma call_preserves_inv (sys : system) :
  page_inv sys -> page_inv (call_fetchAndDisplayDashboard sys).
Proof.
  intros [Hcount Hkey]. unfold call_fetchAndDisplayDashboard, fetchAndDisplayDashboard_start.
  destruct (isLoading (state (dash sys))) eqn:Hl; cbn [orb].
  - rewrite (Hkey eq_refl). split; cbn [dash in_flight]; rewrite Hl; auto.
  - destruct (key_falsy (apiKey (state (dash sys)))) eqn:Hk.
    + split; cbn; rewrite Hl; [exact Hcount | discriminate].
    + split; cbn; [now rewrite Hcount | intros _; exact Hk].
Qed.

Lemma handleKeySubmission_preserves_inv (sys : system) :
  page_inv sys -> page_inv (handleKeySubmission sys).
Proof.
  intros [Hcount Hkey]. unfold handleKeySubmission.
  destruct (string_falsy (trim (apiKeyInput (dom (dash sys))))) eqn:Hu.
  - split; cbn; [exact Hcount | exact Hkey].
  - apply call_preserves_inv. split; cbn; [exact Hcount | intros _; exact Hu].
Qed.

Lemma initialize_inv (page : dom_state) (stored : option string) :
  page_inv (initialize (script_loaded page stored)).
Proof.
  unfold initialize, handleApiKey. cbn [dash with_dash script_loaded localStorage logStatus with_dom].
  destruct stored as [storedKey |].
  - destruct (string_falsy storedKey) eqn:Hs.
    + split; cbn; [reflexivity | discriminate].
    + apply call_preserves_inv. split; cbn; [reflexivity | discriminate].
  - split; cbn; [reflexivity | discriminate].
Qed.

Lemma step_preserves_inv (sys sys' : system) :
  page_inv sys -> step sys sys' -> page_inv sys'.
Proof.
  intros Hinv Hstep. destruct Hstep as [sys | sys | sys tick key | sys n env schedule r Hn Hr].
  - now apply call_preserves_inv.
  - now apply handleKeySubmission_preserves_inv.
  - destruct Hinv as [Hcount Hkey]. split; cbn; assumption.
  - destruct Hinv as [Hcount Hkey]. split; cbn [dash in_flight].
    + rewrite resume_clears_loading.
      destruct (isLoading (state (dash sys))); lia.
    + rewrite resume_clears_loading. discriminate.
Qed.

Lemma reachable_inv (page : dom_state) (stored : option string) (sys : system) :
  reachable page stored sys -> page_inv sys.
Proof.
  induction 1 as [| sys sys' _ IH Hstep].
  - apply initialize_inv.
  - exact (step_preserves_inv sys sys' IH Hstep).
Qed.

(** C7. In every state the page can reach, at most one fetch cycle is in
    flight, and it is in flight exactly while the loading flag is set; a
    call of [fetchAndDisplayDashboard] made while the flag is set returns at
    its guard and changes nothing: no request is issued, no second cycle is
    suspended, and the cycle in flight stays in flight. *)
Theorem request_while_loading_is_noop (page : dom_state) (stored : option string)
  (sys : system) :
  reachable page stored sys ->
  (in_flight sys <= 1)%nat /\
  (in_flight sys = 1%nat <-> isLoading (state (dash sys)) = true) /\
  (isLoading (state (dash sys)) = true ->
   fetchAndDisplayDashboard_start (dash sys) = (dash sys, None) /\
   call_fetchAndDisplayDashboard sys = sys).
Proof.
  intros Hreach. destruct (reachable_inv page stored sys Hreach) as [Hcount Hkey].
  split; [| split].
  - destruct (isLoading (state (dash sys))); lia.
  - destruct (isLoading (state (dash sys))); split; intros H; try reflexivity;
      try discriminate; lia.
  - intros Hl.
    pose proof (start_while_loading (dash sys) Hl (Hkey Hl)) as Hstart.
    split; [exact Hstart |].
    unfold call_fetchAndDisplayDashboard. rewrite Hstart.
    destruct sys; reflexivity.
Qed.

Lemma request_while_loading_is_noop_witness :
  isLoading (state (dash loading_page)) = true /\
  List.length (issued loading_page) = 7%nat /\
  in_flight loading_page = 1%nat /\
  call_fetchAndDisplayDashboard loading_page = loading_page.
Proof.
  destruct (request_while_loading_is_noop blank_page (Some "token"%string) loading_page
              (reachable_initialize blank_page (Some "token"%string)))
    as (_ & _ & Hnoop).
  split; [reflexivity |]. split; [reflexivity |]. split; [reflexivity |].
  apply Hnoop. reflexivity.
Defined.

(** A whole cycle over sixty daily bars: the 50-bar series gets eleven
    points, the first at the time of bar 49 with the mean of the closes 100
    to 149; the 200-bar series is empty. *)
Example daily_cycle_series :
  cycle_error (on_all_fulfilled daily_ok) earlier_render_loading = None /\
  alength (sma50 (series (fetchAndDisplayDashboard_resume (on_all_fulfilled daily_ok)
                            earlier_render_loading))) = 11 /\
  aget (sma50 (series (fetchAndDisplayDashboard_resume (on_all_fulfilled daily_ok)
                         earlier_render_loading))) 0
  = Some {| vp_time := aget daily_times 49; vp_value := Some 124.5%float |} /\
  sma200 (series (fetchAndDisplayDashboard_resume (on_all_fulfilled daily_ok)
                    earlier_render_loading)) = [].
Proof. repeat split. Qed.

(** C5, as the spec words it, fails.  The seven requests succeed with candles
    status ['ok'] and the RSI payload is [{ "s": "no_data" }]: the cycle
    replaces the profile, metrics and news sections, then [data.rsi.t.map]
    throws in [updateChartsUI] before any [setData]; the cycle fails with the
    three sections new and the eight series as they were. *)
Lemma late_failure_leaves_partial_render :
  fetchAndDisplayDashboard_start earlier_render
  = (earlier_render_loading,
     Some (fetchAllEndpoints_requests "AAPL" "token")) /\
  outcome (fetchAllEndpoints rsi_no_data endpoints) = Some (Normal rsi_no_data_bundle) /\
  cycle_error (Normal rsi_no_data_bundle) earlier_render_loading = Some TypeError /\
  rendered (fetchAndDisplayDashboard_resume (Normal rsi_no_data_bundle)
              earlier_render_loading)
  <> rendered earlier_render /\
  option_map companyName
    (profileSection (dom (fetchAndDisplayDashboard_resume (Normal rsi_no_data_bundle)
                            earlier_render_loading)))
  = Some "Apple Inc"%string /\
  series (fetchAndDisplayDashboard_resume (Normal rsi_no_data_bundle)
            earlier_render_loading)
  = series earlier_render.
Proof.
  split; [reflexivity |]. split; [reflexivity |]. split; [reflexivity |].
  split; [| split; reflexivity].
  intros H.
  assert (Hp : option_map companyName
                 (profileSection (dom (fetchAndDisplayDashboard_resume
                                         (Normal rsi_no_data_bundle) earlier_render_loading)))
               = option_map companyName (profileSection (dom earlier_render))).
  { unfold rendered in H. now injection H as -> _ _ _. }
  vm_compute in Hp. discriminate Hp.
Qed.

(** C5, amended.  For every fetch cycle in which the orchestrator fails, the
    cycle fails, the loading flag is cleared and what the dashboard renders
    (the three sections and the eight series) is left exactly as it was
    before the cycle started; and when the whole pipeline succeeds, every
    section and every series is replaced: what is rendered is given by the
    bundle and the ticker alone, nothing of the earlier render remains. *)
Theorem orchestrator_failure_leaves_render_untouched (d d1 : dashboard)
  (requests : list request) :
  fetchAndDisplayDashboard_start d = (d1, Some requests) ->
  (forall e,
     cycle_error (Throw e) d1 = Some e /\
     rendered (fetchAndDisplayDashboard_resume (Throw e) d1) = rendered d /\
     isLoading (state (fetchAndDisplayDashboard_resume (Throw e) d1)) = false) /\
  (forall b d',
     cycle_error (Normal b) d1 = None ->
     currentTicker (state d') = currentTicker (state d1) ->
     cycle_error (Normal b) d' = None /\
     rendered (fetchAndDisplayDashboard_resume (Normal b) d1)
     = rendered (fetchAndDisplayDashboard_resume (Normal b) d')).
Proof.
  intros Hstart. split.
  - intros e. split; [reflexivity |]. split; [| reflexivity].
    unfold fetchAndDisplayDashboard_start in Hstart.
    destruct (isLoading (state d) || key_falsy (apiKey (state d))); [discriminate |].
    injection Hstart as <- _. reflexivity.
  - intros b d' Hok Hticker.
    unfold cycle_error, fetchAndDisplayDashboard_resume, try_block in *.
    unfold updateChartsUI, updateMetricsUI, updateNewsUI, updateProfileUI in *.
    unfold eval, and_then, exec in *.
    destruct (metric (data_metrics b)); try discriminate Hok.
    repeat no_throw Hok.
    split; [reflexivity |].
    unfold rendered. cbn. now rewrite Hticker.
Qed.

Lemma orchestrator_failure_leaves_render_untouched_witness :
  rendered (fetchAndDisplayDashboard_resume (Throw FetchFailed) earlier_render_loading)
  = rendered earlier_render.
Proof.
  apply (proj1 (orchestrator_failure_leaves_render_untouched
                  earlier_render earlier_render_loading
                  (fetchAllEndpoints_requests "AAPL" "token") eq_refl) FetchFailed).
Defined.

(** The whole cycle on seven good answers: nothing of the earlier render is left. *)
Example full_cycle_replaces_everything :
  cycle_error (outcome_of_all_ok) earlier_render_loading = None /\
  option_map companyName
    (profileSection (dom (fetchAndDisplayDashboard_resume outcome_of_all_ok
                            earlier_render_loading)))
  = Some "Apple Inc"%string /\
  sma50 (series (fetchAndDisplayDashboard_resume outcome_of_all_ok earlier_render_loading))
  = [] /\
  volume (series (fetchAndDisplayDashboard_resume outcome_of_all_ok earlier_render_loading))
  = [ {| cp_time := 1700000000; cp_value := Some 1000%float; cp_color := up_color |};
      {| cp_time := 1700086400; cp_value := Some 2000%float; cp_color := down_color |};
      {| cp_time := 1700172800; cp_value := Some 1500%float; cp_color := down_color |} ].
Proof. repeat split. Qed.

(** * Further properties of the script *)

(** ** [calculateSMA] on every input *)

Lemma zseq_app (n m : nat) : forall lo,
  zseq lo (n + m) = zseq lo n ++ zseq (lo + Z.of_nat n) m.
Proof.
  induction n as [| n IH]; intros lo.
  - cbn [Nat.add zseq app]. f_equal. lia.
  - cbn [Nat.add zseq app]. rewrite IH. do 3 f_equal. lia.
Qed.

Lemma map_zseq_ext {B : Type} (f g : Z -> B) (n : nat) : forall lo,
  (forall k, lo <= k < lo + Z.of_nat n -> f k = g k) ->
  map f (zseq lo n) = map g (zseq lo n).
Proof.
  induction n as [| n IH]; intros lo H; [reflexivity |].
  cbn [zseq map]. rewrite (H lo) by lia. f_equal. apply IH.
  intros k Hk. apply H. lia.
Qed.

Lemma map_zseq_shift {B : Type} (f : Z -> B) (n : nat) : forall lo,
  map f (zseq (lo + 1) n) = map (fun k => f (k + 1)) (zseq lo n).
Proof.
  induction n as [| n IH]; intros lo; [reflexivity |].
  cbn [zseq map]. now rewrite IH.
Qed.






Lemma window_cons (x : float) (s : list float) (k period : Z) :
  0 <= k -> window (x :: s) (k + 1) period = window s k period.
Proof.
  intros Hk. unfold window.
  replace (Z.to_nat (k + 1)) with (S (Z.to_nat k)) by lia. reflexivity.
Qed.

Lemma window_app (s more : list float) (k period : Z) :
  0 <= k -> 0 <= period -> k + period <= alength s ->
  window (s ++ more) k period = window s k period.
Proof.
  unfold window, alength. intros Hk Hp Hlen.
  rewrite skipn_app, firstn_app, length_skipn.
  replace (Z.to_nat period - (List.length s - Z.to_nat k))%nat with 0%nat by lia.
  cbn [firstn]. now rewrite app_nil_r.
Qed.

(** X3. The average of a window does not depend on the bars before it:
    dropping the oldest bar of the series drops the first average and keeps
    the others, bit for bit. *)
Theorem calculateSMA_drop_oldest (x : float) (s : list float) (period : Z) :
  1 <= period -> period <= alength s ->
  exists first rest,
    calculateSMA (js_val (x :: s)) period = Normal (first :: rest) /\
    calculateSMA (js_val s) period = Normal rest /\
    first = mean (window (x :: s) 0 period).
Proof.
  intros Hp Hlen.
  assert (Hlen' : alength (x :: s) = alength s + 1).
  { unfold alength. cbn [List.length]. lia. }
  rewrite (calculateSMA_map (x :: s)) by lia.
  rewrite (calculateSMA_map s) by lia.
  rewrite Hlen'.
  replace (Z.to_nat (alength s + 1 - period + 1))
    with (S (Z.to_nat (alength s - period + 1))) by lia.
  cbn [zseq map]. do 2 eexists. split; [reflexivity |]. split; [| reflexivity].
  f_equal. rewrite map_zseq_shift.
  apply map_zseq_ext. intros k Hk.
  now rewrite window_cons by lia.
Qed.

Lemma calculateSMA_drop_oldest_witness :
  exists first rest,
    calculateSMA (js_val [9; 1; 2; 3; 4]%float) 2 = Normal (first :: rest) /\
    calculateSMA (js_val [1; 2; 3; 4]%float) 2 = Normal rest /\
    first = mean (window [9; 1; 2; 3; 4]%float 0 2).
Proof.
  apply (calculateSMA_drop_oldest 9%float [1; 2; 3; 4]%float 2).
  - lia.
  - vm_compute. discriminate.
Defined.

(** X4. New bars never change the averages already computed: the result on
    a series extended by further bars starts with the result on the series
    itself, and has one more value per further bar. *)
Theorem calculateSMA_append_keeps_prefix (s more : list float) (period : Z) :
  1 <= period -> period <= alength s ->
  exists results later,
    calculateSMA (js_val s) period = Normal results /\
    calculateSMA (js_val (s ++ more)) period = Normal (results ++ later) /\
    alength later = alength more.
Proof.
  intros Hp Hlen.
  assert (Hlen' : alength (s ++ more) = alength s + alength more).
  { unfold alength. rewrite length_app. lia. }
  pose proof (alength_nonneg more) as Hmore.
  rewrite (calculateSMA_map s) by lia.
  rewrite (calculateSMA_map (s ++ more)) by lia.
  rewrite Hlen'.
  replace (Z.to_nat (alength s + alength more - period + 1))
    with (Z.to_nat (alength s - period + 1) + Z.to_nat (alength more))%nat by lia.
  rewrite zseq_app, map_app.
  do 2 eexists. split; [reflexivity |]. split.
  - f_equal. f_equal. apply map_zseq_ext. intros k Hk.
    now rewrite window_app by lia.
  - unfold alength at 1. rewrite length_map, zseq_length. lia.
Qed.

Lemma calculateSMA_append_keeps_prefix_witness :
  exists results later,
    calculateSMA (js_val [1; 2; 3]%float) 2 = Normal results /\
    calculateSMA (js_val ([1; 2; 3] ++ [10; 20])%float) 2 = Normal (results ++ later) /\
    alength later = alength [10; 20]%float.
Proof.
  apply (calculateSMA_append_keeps_prefix [1; 2; 3]%float [10; 20]%float 2).
  - lia.
  - vm_compute. discriminate.
Defined.

(** ** The point sequences of [updateChartsUI] *)

Lemma present_val {A : Type} (x : nullable A) :
  present x = true <-> exists a, x = js_val a.
Proof.
  destruct x as [| | a]; cbn; split; intros H; try discriminate; eauto;
    destruct H as [? H]; discriminate.
Qed.

(** A [map] whose callback keeps its element in the point it builds returns
    a point per element, in the order of the array. *)
Lemma map_from_keeps {A B C : Type} (f : A -> Z -> completion B) (h : B -> C) (g : A -> C)
  (a : list A) :
  (forall x i y, f x i = Normal y -> h y = g x) ->
  forall i points, map_from i f a = Normal points -> map h points = map g a.
Proof.
  intros Hf. induction a as [| x r IH]; intros i points H.
  - cbn in H. injection H as <-. reflexivity.
  - cbn [map_from] in H.
    destruct (f x i) as [y |] eqn:Ey; [| discriminate].
    cbn [bind] in H.
    destruct (map_from (i + 1) f r) as [ys |] eqn:Er; [| discriminate].
    cbn [bind] in H. injection H as <-.
    cbn [map]. now rewrite (Hf x i y Ey), (IH (i + 1) ys Er).
Qed.

(** A [map] throws only what its callback throws. *)
Lemma map_from_throws {A B : Type} (f : A -> Z -> completion B) (a : list A) (e0 : js_error) :
  (forall x i e, f x i = Throw e -> e = e0) ->
  forall i e, map_from i f a = Throw e -> e = e0.
Proof.
  intros Hf. induction a as [| x r IH]; intros i e H; [discriminate |].
  cbn [map_from] in H.
  destruct (f x i) as [y |] eqn:Ey.
  - cbn [bind] in H.
    destruct (map_from (i + 1) f r) as [ys |] eqn:Er; [discriminate |].
    cbn [bind] in H. injection H as <-. exact (IH (i + 1) _ Er).
  - cbn [bind] in H. injection H as <-. exact (Hf x i _ Ey).
Qed.

Lemma js_map_throws {A B : Type} (x : nullable (list A)) (f : A -> Z -> completion B) :
  (forall a i e, f a i = Throw e -> e = TypeError) ->
  forall e, js_map x f = Throw e -> e = TypeError.
Proof.
  intros Hf e H. destruct x as [| | a]; cbn [js_map] in H;
    try (now injection H as <-).
  exact (map_from_throws f a TypeError Hf 0 e H).
Qed.

Lemma js_map_normal {A B : Type} (x : nullable (list A)) (f : A -> Z -> completion B)
  (points : list B) :
  js_map x f = Normal points -> exists a, x = js_val a /\ map_from 0 f a = Normal points.
Proof.
  destruct x as [| | a]; cbn [js_map]; intros H; try discriminate. eauto.
Qed.

Lemma get_index_throws {A : Type} (x : nullable (list A)) (i : Z) (e : js_error) :
  get_index x i = Throw e -> e = TypeError.
Proof. destruct x; cbn; intros H; try discriminate; now injection H as <-. Qed.

(** The four kinds of point sequences throw nothing but a [TypeError]. *)
Lemma candlestickData_throws (candles : candles_payload) (e : js_error) :
  candlestickData candles = Throw e -> e = TypeError.
Proof.
  apply js_map_throws. intros tm i e'.
  destruct (c_o candles), (c_h candles), (c_l candles), (c_c candles); cbn;
    intros H; try discriminate; now injection H as <-.
Qed.




Lemma candlestickData_imap (candles : candles_payload) (ts : list Z)
  (opens highs lows closes : list float) :
  c_t candles = js_val ts -> c_o candles = js_val opens -> c_h candles = js_val highs ->
  c_l candles = js_val lows -> c_c candles = js_val closes ->
  candlestickData candles
  = Normal (imap 0 (fun tm index =>
              {| time := tm; open := aget opens index; high := aget highs index;
                 low := aget lows index; close := aget closes index |}) ts).
Proof.
  intros Ht Ho Hh Hl Hc. unfold candlestickData. rewrite Ht. cbn [js_map].
  apply map_from_normal. intros x i. now rewrite Ho, Hh, Hl, Hc.
Qed.

Lemma imap_keeps {A B : Type} (g : A -> Z -> B) (h : B -> A) (a : list A) :
  (forall x i, h (g x i) = x) -> forall i, map h (imap i g a) = a.
Proof.
  intros Hg. induction a as [| x r IH]; intros i; [reflexivity |].
  cbn [imap map]. now rewrite Hg, IH.
Qed.

(** X5. With its five arrays present, [candlestickData] never throws: it has
    one point per timestamp, in the order of [candles.t], and point [i] takes
    [o[i]], [h[i]], [l[i]], [c[i]]; where one of these arrays is shorter than
    [t] the field is [undefined], silently. *)
Theorem candlestick_points_by_index (candles : candles_payload) (ts : list Z)
  (opens highs lows closes : list float) :
  c_t candles = js_val ts -> c_o candles = js_val opens -> c_h candles = js_val highs ->
  c_l candles = js_val lows -> c_c candles = js_val closes ->
  exists points,
    candlestickData candles = Normal points /\
    map time points = ts /\
    forall i tm, aget ts i = Some tm ->
      aget points i
      = Some {| time := tm; open := aget opens i; high := aget highs i;
                low := aget lows i; close := aget closes i |}.
Proof.
  intros Ht Ho Hh Hl Hc.
  rewrite (candlestickData_imap candles ts opens highs lows closes Ht Ho Hh Hl Hc).
  eexists. split; [reflexivity |]. split.
  - now apply imap_keeps.
  - intros i tm Hi. now rewrite (imap_aget _ _ i tm Hi).
Qed.

Lemma candlestick_points_by_index_witness :
  exists points,
    candlestickData sample_candles = Normal points /\
    map time points = [1700000000; 1700086400; 1700172800] /\
    forall i tm, aget [1700000000; 1700086400; 1700172800] i = Some tm ->
      aget points i
      = Some {| time := tm; open := aget [10; 12; 11]%float i;
                high := aget [12; 13; 11.5]%float i;
                low := aget [9.5; 11; 10]%float i;
                close := aget [11; 12; 10.5]%float i |}.
Proof.
  exact (candlestick_points_by_index sample_candles
           [1700000000; 1700086400; 1700172800] [10; 12; 11]%float
           [12; 13; 11.5]%float [9.5; 11; 10]%float [11; 12; 10.5]%float
           eq_refl eq_refl eq_refl eq_refl eq_refl).
Defined.

(** X6. [candlestickData] throws exactly when [candles.t] is absent, or
    [candles.t] has a first element and one of [o], [h], [l], [c] is absent;
    what it throws is a [TypeError].  With an empty [t] the other arrays are
    never read and the result is the empty sequence. *)
Theorem candlestick_throws_iff (candles : candles_payload) :
  (forall e, candlestickData candles = Throw e -> e = TypeError) /\
  (candlestickData candles = Throw TypeError <->
   present (c_t candles) = false \/
   ((exists tm rest, c_t candles = js_val (tm :: rest)) /\
    (present (c_o candles) && present (c_h candles)
     && present (c_l candles) && present (c_c candles) = false))) /\
  (c_t candles = js_val [] -> candlestickData candles = Normal []).
Proof.
  split; [apply candlestickData_throws |]. split.
  - unfold candlestickData.
    destruct (c_t candles) as [| | [| tm rest]]; cbn [js_map present js_not negb].
    + split; [now left | reflexivity].
    + split; [now left | reflexivity].
    + split; [discriminate |].
      intros [H | [(tm & rest & H) _]]; discriminate.
    + destruct (c_o candles) as [| | opens], (c_h candles) as [| | highs],
        (c_l candles) as [| | lows], (c_c candles) as [| | closes];
        cbn [map_from get_index bind andb];
        try (split; [intros _; right; split; [eauto | reflexivity] | reflexivity]).
      split.
      * intros H.
        rewrite (map_from_normal _
                   (fun tm index =>
                      {| time := tm; open := aget opens index; high := aget highs index;
                         low := aget lows index; close := aget closes index |}))
          in H by reflexivity.
        discriminate.
      * intros [H | [_ H]]; discriminate.
  - intros Ht. unfold candlestickData. now rewrite Ht.
Qed.

Lemma candlestick_throws_iff_witness :
  candlestickData no_data_candles = Throw TypeError.
Proof.
  apply (proj1 (proj2 (candlestick_throws_iff no_data_candles))).
  left. reflexivity.
Defined.

Lemma js_map_keeps {A B C : Type} (x : nullable (list A)) (f : A -> Z -> completion B)
  (h : B -> C) (g : A -> C) (a : list A) (points : list B) :
  (forall y i p, f y i = Normal p -> h p = g y) ->
  x = js_val a -> js_map x f = Normal points -> map h points = map g a.
Proof.
  intros Hf -> H. exact (map_from_keeps f h g a Hf 0 points H).
Qed.

Lemma candlestickData_times (candles : candles_payload) (ts : list Z)
  (points : list ohlc_point) :
  c_t candles = js_val ts -> candlestickData candles = Normal points ->
  map time points = ts.
Proof.
  intros Ht H. rewrite <- (map_id ts).
  refine (js_map_keeps _ _ time (fun x => x) ts points _ Ht H).
  intros y i p.
  destruct (c_o candles), (c_h candles), (c_l candles), (c_c candles); cbn;
    intros Hp; try discriminate; now injection Hp as <-.
Qed.

Lemma volumeData_times (candles : candles_payload) (ts : list Z)
  (points : list colored_point) :
  c_t candles = js_val ts -> volumeData candles = Normal points ->
  map cp_time points = ts.
Proof.
  intros Ht H. rewrite <- (map_id ts).
  refine (js_map_keeps _ _ cp_time (fun x => x) ts points _ Ht H).
  intros y i p.
  destruct (c_v candles), (c_c candles), (c_o candles); cbn;
    intros Hp; try discriminate; now injection Hp as <-.
Qed.

Lemma indicatorData_times (times : nullable (list Z)) (values : nullable (list float))
  (ts : list Z) (points : list value_point) :
  times = js_val ts -> indicatorData times values = Normal points ->
  map vp_time points = map Some ts.
Proof.
  intros Ht H.
  refine (js_map_keeps _ _ vp_time Some ts points _ Ht H).
  intros y i p.
  destruct values; cbn; intros Hp; try discriminate; now injection Hp as <-.
Qed.

Lemma macdHistData_times (m : macd_payload) (ts : list Z) (points : list colored_point) :
  macd_t m = js_val ts -> macdHistData m = Normal points ->
  map cp_time points = ts.
Proof.
  intros Ht H. rewrite <- (map_id ts).
  refine (js_map_keeps _ _ cp_time (fun x => x) ts points _ Ht H).
  intros y i p.
  destruct (macdHist m); cbn; intros Hp; try discriminate; now injection Hp as <-.
Qed.

(** X7. When [updateChartsUI] completes, every series keeps the timestamps
    of its own source array, all of them and in their order: the candlestick
    and volume series those of [candles.t], the RSI series those of
    [rsi.t], the three MACD series those of [macd.t], whatever the lengths
    of the value arrays and of the other payloads; the two moving-average
    series have one point per value they were given. *)
Theorem series_keep_their_own_timestamps (data : bundle) (sma50Data sma200Data : list float)
  (d : dashboard) :
  snd (updateChartsUI data sma50Data sma200Data d) = None ->
  exists ts rsi_ts macd_ts,
    c_t (data_candles data) = js_val ts /\
    rsi_t (data_rsi data) = js_val rsi_ts /\
    macd_t (data_macd data) = js_val macd_ts /\
    map time (candlestick (series (fst (updateChartsUI data sma50Data sma200Data d)))) = ts /\
    map cp_time (volume (series (fst (updateChartsUI data sma50Data sma200Data d)))) = ts /\
    map vp_time (series_rsi (series (fst (updateChartsUI data sma50Data sma200Data d))))
    = map Some rsi_ts /\
    map vp_time (macdLine (series (fst (updateChartsUI data sma50Data sma200Data d))))
    = map Some macd_ts /\
    map vp_time (macdSignal (series (fst (updateChartsUI data sma50Data sma200Data d))))
    = map Some macd_ts /\
    map cp_time (series_macdHist (series (fst (updateChartsUI data sma50Data sma200Data d))))
    = macd_ts /\
    alength (sma50 (series (fst (updateChartsUI data sma50Data sma200Data d))))
    = alength sma50Data /\
    alength (sma200 (series (fst (updateChartsUI data sma50Data sma200Data d))))
    = alength sma200Data.
Proof.
  intros Hok.
  destruct (updateChartsUI_completes data sma50Data sma200Data d Hok)
    as (cd & vd & rd & ml & ms & mh & p50 & p200
        & Hcd & Hvd & Hrd & Hml & Hms & Hmh & H50 & H200 & ->).
  destruct (js_map_normal _ _ _ Hcd) as (ts & Ht & _).
  destruct (js_map_normal _ _ _ Hrd) as (rsi_ts & Hrt & _).
  destruct (js_map_normal _ _ _ Hml) as (macd_ts & Hmt & _).
  exists ts, rsi_ts, macd_ts. cbn.
  unfold sma50PlotData, sma200PlotData in H50, H200.
  rewrite (smaPlotData_imap _ ts) in H50, H200 by exact Ht.
  injection H50 as <-. injection H200 as <-.
  unfold alength. rewrite !imap_length.
  repeat split; try assumption.
  - exact (candlestickData_times _ ts cd Ht Hcd).
  - exact (volumeData_times _ ts vd Ht Hvd).
  - exact (indicatorData_times _ _ rsi_ts rd Hrt Hrd).
  - exact (indicatorData_times _ _ macd_ts ml Hmt Hml).
  - exact (indicatorData_times _ _ macd_ts ms Hmt Hms).
  - exact (macdHistData_times _ macd_ts mh Hmt Hmh).
Qed.

Lemma series_keep_their_own_timestamps_witness :
  map vp_time (series_rsi (series (fst (updateChartsUI sample_bundle [] [] earlier_render))))
  = map Some [1700086400; 1700172800] /\
  map time (candlestick (series (fst (updateChartsUI sample_bundle [] [] earlier_render))))
  = [1700000000; 1700086400; 1700172800].
Proof.
  destruct (series_keep_their_own_timestamps sample_bundle [] [] earlier_render eq_refl)
    as (ts & rsi_ts & macd_ts & Ht & Hrt & _ & Hc & _ & Hr & _).
  injection Ht as <-. injection Hrt as <-. split; assumption.
Defined.

(** X8. The MACD histogram has two colors: point [i] is "up" exactly when
    [macdHist[i] >= 0], zero included, and "down" otherwise, also when the
    value is missing ([macdHist] shorter than [t]). *)
Theorem histogram_color_up_iff_nonnegative (m : macd_payload) (ts : list Z)
  (hist : list float) :
  macd_t m = js_val ts -> macdHist m = js_val hist ->
  exists points,
    macdHistData m = Normal points /\
    map cp_time points = ts /\
    forall i tm, aget ts i = Some tm ->
      exists p,
        aget points i = Some p /\
        cp_value p = aget hist i /\
        (cp_color p = up_color <->
         exists x, aget hist i = Some x /\ (0 <=? x)%float = true) /\
        (aget hist i = Some 0%float -> cp_color p = up_color) /\
        (aget hist i = None -> cp_color p = down_color) /\
        (cp_color p = up_color \/ cp_color p = down_color).
Proof.
  intros Ht Hh.
  assert (Himap : macdHistData m
                  = Normal (imap 0 (fun tm index =>
                              {| cp_time := tm; cp_value := aget hist index;
                                 cp_color := if js_ge_zero (aget hist index)
                                             then up_color else down_color |}) ts)).
  { unfold macdHistData. rewrite Ht. cbn [js_map].
    apply map_from_normal. intros x i. now rewrite Hh. }
  rewrite Himap. eexists. split; [reflexivity |]. split; [now apply imap_keeps |].
  intros i tm Hi. eexists. split; [exact (imap_aget _ _ i tm Hi) |].
  cbn [cp_value cp_color]. split; [reflexivity |].
  pose proof up_down_differ as Hne.
  destruct (aget hist i) as [x |]; cbn [js_ge_zero].
  - destruct (0 <=? x)%float eqn:E.
    + split; [split; [intros _; now exists x | reflexivity] |].
      split; [reflexivity |]. split; [discriminate |]. now left.
    + split.
      { split.
        - intros Hup. symmetry in Hup. contradiction.
        - intros (y & Hy & Hpos). injection Hy as <-. congruence. }
      split; [intros Hz; injection Hz as ->; vm_compute in E; discriminate |].
      split; [reflexivity |]. now right.
  - split.
    { split.
      - intros Hup. symmetry in Hup. contradiction.
      - intros (y & Hy & _). discriminate. }
    split; [discriminate |]. split; [reflexivity |]. now right.
Qed.

Lemma histogram_color_up_iff_nonnegative_witness :
  exists points,
    macdHistData sample_macd = Normal points /\
    map cp_time points = [1700172800] /\
    forall i tm, aget [1700172800] i = Some tm ->
      exists p,
        aget points i = Some p /\
        cp_value p = aget [0.25]%float i /\
        (cp_color p = up_color <->
         exists x, aget [0.25]%float i = Some x /\ (0 <=? x)%float = true) /\
        (aget [0.25]%float i = Some 0%float -> cp_color p = up_color) /\
        (aget [0.25]%float i = None -> cp_color p = down_color) /\
        (cp_color p = up_color \/ cp_color p = down_color).
Proof.
  exact (histogram_color_up_iff_nonnegative sample_macd [1700172800] [0.25]%float
           eq_refl eq_refl).
Defined.




(** ** A whole cycle *)


Lemma map_zseq_get {B : Type} (f : Z -> B) (n : nat) (k : Z) :
  0 <= k < Z.of_nat n -> aget (map f (zseq 0 n)) k = Some (f k).
Proof.
  intros Hk. rewrite <- (Z2Nat.id k) at 1 by lia. rewrite aget_nat.
  rewrite nth_error_map, zseq_nth by lia.
  cbn [option_map]. do 2 f_equal. lia.
Qed.

(** The two moving-average series at the end of a cycle that completes. *)
Lemma cycle_sma_series (b : bundle) (d : dashboard) :
  cycle_error (Normal b) d = None ->
  exists sma50Data sma200Data points50 points200,
    calculateSMA (c_c (data_candles b)) 50 = Normal sma50Data /\
    calculateSMA (c_c (data_candles b)) 200 = Normal sma200Data /\
    sma50PlotData (data_candles b) sma50Data = Normal points50 /\
    sma200PlotData (data_candles b) sma200Data = Normal points200 /\
    sma50 (series (fetchAndDisplayDashboard_resume (Normal b) d)) = points50 /\
    sma200 (series (fetchAndDisplayDashboard_resume (Normal b) d)) = points200.
Proof.
  intros Hok.
  unfold cycle_error, fetchAndDisplayDashboard_resume, try_block in *.
  unfold updateChartsUI, updateMetricsUI, updateNewsUI, updateProfileUI in *.
  unfold eval, and_then, exec in *.
  destruct (metric (data_metrics b)); try discriminate Hok.
  repeat no_throw Hok.
  do 4 eexists. repeat split; first [eassumption | reflexivity].
Qed.

Lemma sma_series_points (ts : list Z) (closes : list float) (period : Z)
  (candles : candles_payload) (smaData : list float) (points : list value_point) :
  1 <= period ->
  c_t candles = js_val ts ->
  calculateSMA (js_val closes) period = Normal smaData ->
  smaPlotData candles (period - 1) smaData = Normal points ->
  alength points = Z.max 0 (alength closes - (period - 1)) /\
  forall k, 0 <= k < alength closes - (period - 1) ->
    aget points k
    = Some {| vp_time := aget ts (k + (period - 1));
              vp_value := Some (mean (window closes k period)) |}.
Proof.
  intros Hp Ht Hsma Hpoints.
  rewrite (smaPlotData_imap candles ts) in Hpoints by exact Ht.
  injection Hpoints as <-.
  destruct (Z.ltb_spec (alength closes) period) as [Hshort | Hlong].
  - unfold calculateSMA in Hsma. cbn [js_not get_length bind] in Hsma.
    destruct (Z.ltb_spec (alength closes) period); [| lia].
    injection Hsma as <-. split; [cbn; lia | intros k Hk; lia].
  - rewrite calculateSMA_map in Hsma by lia. injection Hsma as <-. split.
    + unfold alength at 1. rewrite imap_length, length_map, zseq_length. lia.
    + intros k Hk.
      pose proof (map_zseq_get (fun i => mean (window closes i period))
                    (Z.to_nat (alength closes - period + 1)) k ltac:(lia)) as Hget.
      cbv beta in Hget. now rewrite (imap_aget _ _ k _ Hget).
Qed.

(** X10. At the end of a cycle that completes, the 50-bar series has one
    point per window of fifty closes, none when there are fewer than fifty:
    point [k] is drawn at the time of the last bar of its window, [t[k + 49]],
    with the mean of [c[k .. k+49]]; the same holds of the 200-bar series with
    [t[k + 199]] and [c[k .. k+199]].  Whatever these series showed before
    is gone. *)
Theorem cycle_draws_averages_at_window_end (b : bundle) (d : dashboard) (ts : list Z)
  (closes : list float) :
  cycle_error (Normal b) d = None ->
  c_t (data_candles b) = js_val ts ->
  c_c (data_candles b) = js_val closes ->
  alength (sma50 (series (fetchAndDisplayDashboard_resume (Normal b) d)))
  = Z.max 0 (alength closes - 49) /\
  (forall k, 0 <= k < alength closes - 49 ->
     aget (sma50 (series (fetchAndDisplayDashboard_resume (Normal b) d))) k
     = Some {| vp_time := aget ts (k + 49);
               vp_value := Some (mean (window closes k 50)) |}) /\
  alength (sma200 (series (fetchAndDisplayDashboard_resume (Normal b) d)))
  = Z.max 0 (alength closes - 199) /\
  (forall k, 0 <= k < alength closes - 199 ->
     aget (sma200 (series (fetchAndDisplayDashboard_resume (Normal b) d))) k
     = Some {| vp_time := aget ts (k + 199);
               vp_value := Some (mean (window closes k 200)) |}).
Proof.
  intros Hok Ht Hc.
  destruct (cycle_sma_series b d Hok)
    as (sma50Data & sma200Data & points50 & points200
        & H50 & H200 & Hp50 & Hp200 & -> & ->).
  rewrite Hc in H50, H200.
  destruct (sma_series_points ts closes 50 _ _ _ ltac:(lia) Ht H50 Hp50) as [L50 P50].
  destruct (sma_series_points ts closes 200 _ _ _ ltac:(lia) Ht H200 Hp200) as [L200 P200].
  repeat split; assumption.
Qed.

Lemma cycle_draws_averages_at_window_end_witness :
  alength (sma50 (series (fetchAndDisplayDashboard_resume (Normal daily_bundle)
                            earlier_render_loading)))
  = Z.max 0 (alength daily_closes - 49) /\
  sma200 (series (fetchAndDisplayDashboard_resume (Normal daily_bundle)
                    earlier_render_loading)) = [].
Proof.
  destruct (cycle_draws_averages_at_window_end daily_bundle earlier_render_loading
              daily_times daily_closes eq_refl eq_refl eq_refl)
    as (L50 & _ & _ & _).
  split; [exact L50 | reflexivity].
Defined.

(** Case analysis on every evaluation the goal still branches on. *)
Ltac each_completion :=
  repeat match goal with
    | |- context [match ?x with Normal _ => _ | Throw _ => _ end] => destruct x
    end.

Ltac new_entries :=
  first [ exists []; reflexivity
        | eexists [_]; reflexivity
        | eexists [_; _]; reflexivity ].

(** The [try] block writes to the three sections, to the series and on top
    of the log, and to nothing else. *)
Lemma try_block_frame (settled_with : completion bundle) (d : dashboard) :
  writes_render_only d (fst (try_block settled_with d)).
Proof.
  unfold writes_render_only, try_block.
  unfold updateChartsUI, updateMetricsUI, updateNewsUI, updateProfileUI.
  unfold eval, and_then, exec.
  destruct settled_with as [b | e];
    [| cbn; repeat split; first [reflexivity | new_entries]].
  destruct (metric (data_metrics b)); each_completion; cbn;
    repeat split; first [reflexivity | new_entries].
Qed.

(** X11. However a cycle ends, with the dashboard updated or with an error
    caught, the loading flag is cleared and the button is enabled again with
    its label ['Load Data']; the saved key, the current ticker, the stored
    key, the two inputs and the lock are as they were when the cycle
    resumed. *)
Theorem cycle_end_restores_controls (settled_with : completion bundle) (d : dashboard) :
  isLoading (state (fetchAndDisplayDashboard_resume settled_with d)) = false /\
  submitBtnText (dom (fetchAndDisplayDashboard_resume settled_with d)) = "Load Data"%string /\
  submitBtnDisabled (dom (fetchAndDisplayDashboard_resume settled_with d)) = false /\
  apiKey (state (fetchAndDisplayDashboard_resume settled_with d)) = apiKey (state d) /\
  currentTicker (state (fetchAndDisplayDashboard_resume settled_with d))
  = currentTicker (state d) /\
  localStorage (fetchAndDisplayDashboard_resume settled_with d) = localStorage d /\
  tickerInput (dom (fetchAndDisplayDashboard_resume settled_with d)) = tickerInput (dom d) /\
  apiKeyInput (dom (fetchAndDisplayDashboard_resume settled_with d)) = apiKeyInput (dom d) /\
  locked (dom (fetchAndDisplayDashboard_resume settled_with d)) = locked (dom d).
Proof.
  pose proof (try_block_frame settled_with d) as Hframe.
  unfold fetchAndDisplayDashboard_resume.
  destruct (try_block settled_with d) as [d' [e |]];
    destruct Hframe as (Hs & _ & Hl & Ht & Hk & _ & _ & Hlock & _);
    cbn in *; rewrite Hs; repeat split; assumption.
Qed.

(** The log and the alerts at the end of a cycle that completes. *)
Lemma completed_cycle_log (settled_with : completion bundle) (d : dashboard) :
  cycle_error settled_with d = None ->
  alerts (fetchAndDisplayDashboard_resume settled_with d) = alerts d /\
  statusLog (dom (fetchAndDisplayDashboard_resume settled_with d))
  = {| entry_message :=
         Text ("Dashboard updated for " ++ currentTicker (state d) ++ ".");
       entry_type := "success" |}
      :: {| entry_message := Text "All data received. Processing...";
            entry_type := "info" |}
      :: statusLog (dom d).
Proof.
  intros Hok.
  unfold cycle_error, fetchAndDisplayDashboard_resume, try_block in *.
  unfold updateChartsUI, updateMetricsUI, updateNewsUI, updateProfileUI in *.
  unfold eval, and_then, exec in *.
  destruct settled_with as [b | e]; [| discriminate Hok].
  destruct (metric (data_metrics b)); try discriminate Hok.
  repeat no_throw Hok.
  split; reflexivity.
Qed.















(** X15. A bundle whose [metrics.metric] is absent stops the cycle right
    after the header: the profile section is replaced with the new company,
    then [updateMetricsUI] throws a [TypeError] before writing, so the
    metrics and news sections and the eight series still show the earlier
    render. *)
Theorem missing_metric_stops_after_profile (b : bundle) (d : dashboard) :
  present (metric (data_metrics b)) = false ->
  cycle_error (Normal b) d = Some TypeError /\
  profileSection (dom (fetchAndDisplayDashboard_resume (Normal b) d))
  = Some {| companyName := or_default (name (data_profile b)) "Company Name";
            companyTicker := or_default (ticker (data_profile b)) "TICKER";
            companyLogo := or_default (logo (data_profile b)) EmptyString;
            priceChartTitle :=
              or_default (name (data_profile b)) (currentTicker (state d))
              ++ " Daily Chart";
            industry_text := or_default (finnhubIndustry (data_profile b)) "N/A";
            website_href := template_of (weburl (data_profile b));
            website_text := or_default (weburl (data_profile b)) "N/A";
            exchange_text := or_default (exchange (data_profile b)) "N/A" |} /\
  metricsSection (dom (fetchAndDisplayDashboard_resume (Normal b) d))
  = metricsSection (dom d) /\
  newsSection (dom (fetchAndDisplayDashboard_resume (Normal b) d)) = newsSection (dom d) /\
  series (fetchAndDisplayDashboard_resume (Normal b) d) = series d.
Proof.
  intros Hm.
  unfold cycle_error, fetchAndDisplayDashboard_resume, try_block.
  unfold updateMetricsUI, updateNewsUI, updateProfileUI, eval, and_then, exec.
  destruct (metric (data_metrics b)); try discriminate Hm; repeat split.
Qed.

Lemma missing_metric_stops_after_profile_witness :
  cycle_error
    (Normal {| data_profile := sample_profile; data_quote := sample_quote;
               data_metrics := {| metric := js_undefined |};
               data_candles := sample_candles; data_rsi := sample_rsi;
               data_macd := sample_macd; data_news := sample_news |})
    earlier_render_loading
  = Some TypeError.
Proof.
  exact (proj1 (missing_metric_stops_after_profile
                  {| data_profile := sample_profile; data_quote := sample_quote;
                     data_metrics := {| metric := js_undefined |};
                     data_candles := sample_candles; data_rsi := sample_rsi;
                     data_macd := sample_macd; data_news := sample_news |}
                  earlier_render_loading eq_refl)).
Defined.

(** X16. With [metric] present, [updateMetricsUI] never throws, and a
    missing figure falls back differently from card to card: the price and
    the two 52-week cards show ['0.00'], the P/E card ['N/A'], but the
    market-cap card never shows its ['0.00'] default, since the division
    comes before the test: a missing [marketCapitalization] is drawn as
    [NaN.toFixed(2)], a [null] one as [0]. *)
Theorem metric_cards_fall_back (metricsData : metrics_payload) (quoteData : quote_payload)
  (m : metric_object) (d : dashboard) :
  metric metricsData = js_val m ->
  snd (updateMetricsUI metricsData quoteData d) = None /\
  exists view,
    metricsSection (dom (fst (updateMetricsUI metricsData quoteData d))) = Some view /\
    (present (quote_c quoteData) = false -> card_price view = Literal "0.00") /\
    (present (week52High m) = false -> card_high view = Literal "0.00") /\
    (present (week52Low m) = false -> card_low view = Literal "0.00") /\
    (present (peNormalizedAnnual m) = false -> card_pe view = Literal "N/A") /\
    (forall text, card_marketCap view <> Literal text) /\
    (marketCapitalization m = js_undefined -> card_marketCap view = Fixed2 nan) /\
    (marketCapitalization m = js_null -> card_marketCap view = Fixed2 0%float).
Proof.
  intros Hm. unfold updateMetricsUI. rewrite Hm. cbn.
  split; [reflexivity |]. eexists. split; [reflexivity |]. cbn.
  repeat split.
  - destruct (quote_c quoteData); cbn; intros H; try discriminate; reflexivity.
  - destruct (week52High m); cbn; intros H; try discriminate; reflexivity.
  - destruct (week52Low m); cbn; intros H; try discriminate; reflexivity.
  - destruct (peNormalizedAnnual m); cbn; intros H; try discriminate; reflexivity.
  - discriminate.
  - intros ->. reflexivity.
  - intros ->. reflexivity.
Qed.

Lemma metric_cards_fall_back_witness :
  snd (updateMetricsUI sample_metrics sample_quote earlier_render) = None.
Proof.
  refine (proj1 (metric_cards_fall_back sample_metrics sample_quote _ earlier_render
                   eq_refl)).
Defined.

(** ** Runs of the orchestrator *)

Section Settlement.

Variable env : responses.

Lemma on_settle_keeps_outcome (key : endpoint) (p : orchestrator) (r : completion bundle) :
  outcome p = Some r -> outcome (on_settle env key p) = Some r.
Proof.
  intros Hr. unfold on_settle. destruct (has_settled key p); [exact Hr |].
  now rewrite Hr.
Qed.

Lemma run_keeps_outcome (schedule : list endpoint) :
  forall p r, outcome p = Some r ->
    outcome (fold_left (fun p key => on_settle env key p) schedule p) = Some r.
Proof.
  induction schedule as [| key rest IH]; intros p r Hr; [exact Hr |].
  cbn [fold_left]. apply IH. now apply on_settle_keeps_outcome.
Qed.

Lemma fetchAllEndpoints_app (first later : list endpoint) :
  fetchAllEndpoints env (first ++ later)
  = fold_left (fun p key => on_settle env key p) later (fetchAllEndpoints env first).
Proof. unfold fetchAllEndpoints. now rewrite fold_left_app. Qed.

(** Only the requests of the schedule have settled. *)
Lemma settled_in_schedule (schedule : list endpoint) (k : endpoint) :
  forall p,
    has_settled k (fold_left (fun p key => on_settle env key p) schedule p) = true ->
    In k schedule \/ has_settled k p = true.
Proof.
  induction schedule as [| key rest IH]; intros p H; [now right |].
  cbn [fold_left] in H. destruct (IH _ H) as [Hin | Hk]; [left; now right |].
  rewrite on_settle_settled in Hk. apply orb_true_iff in Hk.
  destruct Hk as [Hk | Hk]; [| now right].
  apply endpoint_eqb_eq in Hk. left. now left.
Qed.

Lemma settled_in_run (schedule : list endpoint) (k : endpoint) :
  has_settled k (fetchAllEndpoints env schedule) = true -> In k schedule.
Proof.
  intros H. destruct (settled_in_schedule schedule k _ H) as [Hin | Habs];
    [exact Hin | discriminate].
Qed.

(** While every request settled so far has fulfilled and one is missing,
    the promise is pending. *)
Lemma pending_run (schedule : list endpoint) (missing : endpoint) :
  (forall k, In k schedule -> request_rejection env k = None) ->
  ~ In missing schedule ->
  outcome (fetchAllEndpoints env schedule) = None.
Proof.
  intros Hful Hmiss.
  pose proof (fetchAllEndpoints_inv env schedule) as Hinv.
  unfold orchestrator_inv in Hinv.
  destruct (outcome (fetchAllEndpoints env schedule)) as [r |]; [| reflexivity].
  exfalso. destruct Hinv as [(k & e & Hk & Hrej & _) | (Hall & _)].
  - apply settled_in_run in Hk. rewrite (Hful k Hk) in Hrej. discriminate.
  - apply Hmiss, settled_in_run. now apply all_settled_spec.
Qed.

End Settlement.

Lemma orchestrator_outcome_is_final_aux (env : responses) (first later : list endpoint)
  (r : completion bundle) :
  outcome (fetchAllEndpoints env first) = Some r ->
  outcome (fetchAllEndpoints env (first ++ later)) = Some r.
Proof.
  intros Hr. rewrite fetchAllEndpoints_app. now apply run_keeps_outcome.
Qed.



(** X18. The error of a run is the error of the request that is first to
    settle as a failure, whatever its place among the endpoints and whatever
    settles after it: requests that fail later are not reported. *)
Theorem first_failure_to_settle_is_reported (env : responses)
  (before after : list endpoint) (key : endpoint) (e : js_error) :
  (forall k, In k before -> request_rejection env k = None) ->
  request_rejection env key = Some e ->
  outcome (fetchAllEndpoints env (before ++ key :: after)) = Some (Throw e).
Proof.
  intros Hful Hfail.
  assert (Hmiss : ~ In key before).
  { intros Hin. rewrite (Hful key Hin) in Hfail. discriminate. }
  change (key :: after) with ([key] ++ after). rewrite app_assoc.
  apply orchestrator_outcome_is_final_aux.
  rewrite fetchAllEndpoints_snoc. unfold on_settle.
  destruct (has_settled key (fetchAllEndpoints env before)) eqn:Hkey.
  - apply settled_in_run in Hkey. contradiction.
  - now rewrite (pending_run env before key Hful Hmiss), Hfail.
Qed.

Lemma first_failure_to_settle_is_reported_witness :
  outcome (fetchAllEndpoints
             {| resp_profile := NetworkFailure;
                resp_quote := resp_quote all_ok; resp_metrics := resp_metrics all_ok;
                resp_candles := resp_candles all_ok; resp_rsi := resp_rsi all_ok;
                resp_macd := resp_macd all_ok; resp_news := HttpResponse false None |}
             ([key_quote; key_candles] ++ key_news :: [key_profile; key_rsi]))
  = Some (Throw (Error "Network response for news was not ok.")).
Proof.
  apply first_failure_to_settle_is_reported.
  - intros k [<- | [<- | []]]; reflexivity.
  - reflexivity.
Defined.

(** X19. When the seven requests succeed, the order in which they settle
    does not matter: every run in which all of them have settled ends with
    the same outcome, the callback's result on the seven payloads, each
    stored under the key of its own endpoint. *)
Theorem settle_order_does_not_matter (env : responses) (schedule : list endpoint) :
  (forall key, request_rejection env key = None) ->
  (forall key, In key schedule) ->
  outcome (fetchAllEndpoints env schedule) = Some (on_all_fulfilled env).
Proof.
  intros Hful Hall.
  pose proof (fetchAllEndpoints_inv env schedule) as Hinv.
  pose proof (complete_schedule_settles_all env schedule Hall) as Hsettled.
  unfold orchestrator_inv in Hinv.
  destruct (outcome (fetchAllEndpoints env schedule)) as [r |].
  - destruct Hinv as [(k & e & _ & Hrej & _) | (_ & _ & ->)]; [| reflexivity].
    rewrite Hful in Hrej. discriminate.
  - destruct Hinv as [Hpending _]. rewrite Hsettled in Hpending. discriminate.
Qed.

Lemma settle_order_does_not_matter_witness :
  outcome (fetchAllEndpoints all_ok
             [key_news; key_macd; key_rsi; key_candles; key_metrics; key_quote;
              key_profile])
  = Some (Normal sample_bundle).
Proof.
  apply (settle_order_does_not_matter all_ok).
  - intros key. destruct key; reflexivity.
  - intros key. destruct key; cbn; tauto.
Defined.

(** X20. No result from part of the answers: while every request that has
    settled has succeeded and at least one request has not settled, the
    orchestrator's promise is pending, so the cycle stays suspended. *)
Theorem pending_until_last_request (env : responses) (schedule : list endpoint)
  (missing : endpoint) :
  (forall key, In key schedule -> request_rejection env key = None) ->
  ~ In missing schedule ->
  outcome (fetchAllEndpoints env schedule) = None.
Proof. apply pending_run. Qed.

Lemma pending_until_last_request_witness :
  outcome (fetchAllEndpoints all_ok
             [key_news; key_macd; key_rsi; key_candles; key_metrics; key_quote])
  = None.
Proof.
  apply (pending_until_last_request all_ok _ key_profile).
  - intros key _. destruct key; reflexivity.
  - cbn. intros H. repeat (destruct H as [H | H]; [discriminate |]). exact H.
Defined.

(** X21. The error of a non-success status names its request: two endpoints
    never give the same message, so the message tells which of the seven
    requests was refused. *)
Theorem not_ok_error_names_the_endpoint {A B : Type} (key1 key2 : endpoint)
  (body1 : option A) (body2 : option B) (e : js_error) :
  request_promise key1 (HttpResponse false body1) = Throw e ->
  request_promise key2 (HttpResponse false body2) = Throw e ->
  key1 = key2.
Proof.
  cbn. intros H1 H2. injection H1 as <-.
  destruct key1, key2; try reflexivity; discriminate H2.
Qed.

Lemma not_ok_error_names_the_endpoint_witness : key_news = key_news.
Proof.
  exact (not_ok_error_names_the_endpoint key_news key_news (@None (list article))
           (@None (list article)) (Error "Network response for news was not ok.")
           eq_refl eq_refl).
Defined.

(** ** The handlers of the page *)

(** X22. A call of [fetchAndDisplayDashboard] on an idle dashboard with a
    saved key starts a cycle: the flag is set, the button is disabled with
    the label ['Loading...'], the current ticker becomes the upper-cased
    content of the ticker input, and seven requests are issued for that
    ticker with the saved key; nothing rendered is touched.  Without a key
    the call only raises its alert. *)
Theorem cycle_start_fetches_input_ticker (d : dashboard) :
  (forall key,
     isLoading (state d) = false ->
     apiKey (state d) = Some key -> string_falsy key = false ->
     exists d1,
       fetchAndDisplayDashboard_start d
       = (d1, Some (fetchAllEndpoints_requests (toUpperCase (tickerInput (dom d))) key)) /\
       isLoading (state d1) = true /\
       currentTicker (state d1) = toUpperCase (tickerInput (dom d)) /\
       apiKey (state d1) = Some key /\
       submitBtnDisabled (dom d1) = true /\
       submitBtnText (dom d1) = "Loading..."%string /\
       rendered d1 = rendered d /\
       alerts d1 = alerts d) /\
  (key_falsy (apiKey (state d)) = true ->
   fetchAndDisplayDashboard_start d
   = (alert (Text "Please save a valid API key before loading data.") d, None)).
Proof.
  unfold fetchAndDisplayDashboard_start. split.
  - intros key Hl Hk Hkey. rewrite Hl, Hk. cbn [key_falsy orb]. rewrite Hkey.
    eexists. split; [cbn; rewrite Hk; reflexivity |]. cbn. rewrite Hk. repeat split.
  - intros Hk. rewrite Hk, orb_true_r. reflexivity.
Qed.

Lemma cycle_start_fetches_input_ticker_witness :
  exists d1,
    fetchAndDisplayDashboard_start earlier_render
    = (d1, Some (fetchAllEndpoints_requests (toUpperCase "aapl") "token")) /\
    isLoading (state d1) = true /\
    currentTicker (state d1) = toUpperCase "aapl" /\
    apiKey (state d1) = Some "token"%string /\
    submitBtnDisabled (dom d1) = true /\
    submitBtnText (dom d1) = "Loading..."%string /\
    rendered d1 = rendered earlier_render /\
    alerts d1 = alerts earlier_render.
Proof.
  exact (proj1 (cycle_start_fetches_input_ticker earlier_render) "token"%string
           eq_refl eq_refl eq_refl).
Defined.

(** X23. On page load, a non-empty key found in [localStorage] is taken as
    the saved key and copied to the key input, the dashboard is unlocked and
    the first cycle starts at once for the ticker of the page's input; with
    no stored key, or an empty one, the dashboard is locked, no key is
    saved, and nothing is fetched. *)
Theorem initialize_by_stored_key (page : dom_state) (stored : option string) :
  (forall key,
     stored = Some key -> string_falsy key = false ->
     apiKey (state (dash (initialize (script_loaded page stored)))) = Some key /\
     apiKeyInput (dom (dash (initialize (script_loaded page stored)))) = key /\
     locked (dom (dash (initialize (script_loaded page stored)))) = false /\
     isLoading (state (dash (initialize (script_loaded page stored)))) = true /\
     in_flight (initialize (script_loaded page stored)) = 1%nat /\
     issued (initialize (script_loaded page stored))
     = fetchAllEndpoints_requests (toUpperCase (tickerInput page)) key) /\
  (key_falsy stored = true ->
   apiKey (state (dash (initialize (script_loaded page stored)))) = None /\
   locked (dom (dash (initialize (script_loaded page stored)))) = true /\
   isLoading (state (dash (initialize (script_loaded page stored)))) = false /\
   in_flight (initialize (script_loaded page stored)) = 0%nat /\
   issued (initialize (script_loaded page stored)) = [] /\
   alerts (dash (initialize (script_loaded page stored))) = []).
Proof.
  unfold initialize, handleApiKey. split.
  - intros key -> Hkey. cbn [script_loaded with_dash dash localStorage logStatus with_dom].
    rewrite Hkey. unfold call_fetchAndDisplayDashboard, fetchAndDisplayDashboard_start.
    cbn. rewrite Hkey. cbn. repeat split.
  - intros Hk. destruct stored as [key |]; cbn in Hk |- *.
    + rewrite Hk. cbn. repeat split.
    + repeat split.
Qed.

Lemma initialize_by_stored_key_witness :
  in_flight (initialize (script_loaded blank_page (Some "token"%string))) = 1%nat /\
  locked (dom (dash (initialize (script_loaded blank_page None)))) = true.
Proof.
  split.
  - exact (proj1 (proj2 (proj2 (proj2 (proj2
             (proj1 (initialize_by_stored_key blank_page (Some "token"%string))
                "token"%string eq_refl eq_refl)))))).
  - exact (proj1 (proj2 (proj2 (initialize_by_stored_key blank_page None) eq_refl))).
Defined.

(** X24. Submitting a key that is empty or only white space is refused: an
    alert and an error log entry, and nothing else; the saved key, the
    stored key, the lock, the issued requests and the cycle in flight are
    as they were. *)
Theorem blank_key_is_refused (sys : system) :
  string_falsy (trim (apiKeyInput (dom (dash sys)))) = true ->
  state (dash (handleKeySubmission sys)) = state (dash sys) /\
  localStorage (dash (handleKeySubmission sys)) = localStorage (dash sys) /\
  locked (dom (dash (handleKeySubmission sys))) = locked (dom (dash sys)) /\
  rendered (dash (handleKeySubmission sys)) = rendered (dash sys) /\
  issued (handleKeySubmission sys) = issued sys /\
  in_flight (handleKeySubmission sys) = in_flight sys /\
  alerts (dash (handleKeySubmission sys))
  = Text "API Key field cannot be empty." :: alerts (dash sys) /\
  statusLog (dom (dash (handleKeySubmission sys)))
  = {| entry_message := Text "Please enter a valid API key."; entry_type := "error" |}
      :: statusLog (dom (dash sys)).
Proof.
  intros Hblank. unfold handleKeySubmission. rewrite Hblank. repeat split.
Qed.

Lemma blank_key_is_refused_witness :
  issued (handleKeySubmission
            (with_dash (with_dom (set_inputs "msft" "   ")) loading_page))
  = issued loading_page.
Proof.
  refine (proj1 (proj2 (proj2 (proj2 (proj2
            (blank_key_is_refused
               (with_dash (with_dom (set_inputs "msft" "   ")) loading_page) _)))))).
  reflexivity.
Defined.



(** ** What every reachable page satisfies *)



Lemma resume_keeps (settled_with : completion bundle) (d : dashboard) :
  apiKey (state (fetchAndDisplayDashboard_resume settled_with d)) = apiKey (state d) /\
  currentTicker (state (fetchAndDisplayDashboard_resume settled_with d))
  = currentTicker (state d) /\
  localStorage (fetchAndDisplayDashboard_resume settled_with d) = localStorage d /\
  locked (dom (fetchAndDisplayDashboard_resume settled_with d)) = locked (dom d) /\
  (exists entries,
     statusLog (dom (fetchAndDisplayDashboard_resume settled_with d))
     = entries ++ statusLog (dom d)) /\
  (exists shown,
     alerts (fetchAndDisplayDashboard_resume settled_with d) = shown ++ alerts d).
Proof.
  pose proof (try_block_frame settled_with d) as Hframe.
  unfold fetchAndDisplayDashboard_resume.
  destruct (try_block settled_with d) as [d' [e |]];
    destruct Hframe as (Hs & Ha & Hl & _ & _ & _ & _ & Hlock & entries & Hlog);
    cbn in *; rewrite Hs, Ha, Hlog; repeat split; try assumption.
  - now exists ({| entry_message := MessageOf e; entry_type := "error" |} :: entries).
  - now exists [MessageOf e].
  - now exists entries.
  - now exists [].
Qed.







(** X28. No event locks the dashboard again or forgets the key: after a
    click, an edit of the inputs or the end of a cycle, an unlocked
    dashboard is still unlocked and a saved key is still there. *)
Theorem step_never_relocks (sys sys' : system) :
  step sys sys' ->
  (locked (dom (dash sys)) = false -> locked (dom (dash sys')) = false) /\
  (key_falsy (apiKey (state (dash sys))) = false ->
   key_falsy (apiKey (state (dash sys'))) = false).
Proof.
  intros Hstep.
  destruct Hstep as [sys | sys | sys tick key | sys n env schedule r Hn Hr].
  - unfold call_fetchAndDisplayDashboard, fetchAndDisplayDashboard_start.
    destruct (isLoading (state (dash sys)) || key_falsy (apiKey (state (dash sys))));
      [destruct (key_falsy (apiKey (state (dash sys)))) eqn:Hfalsy |];
      cbn; split; intros H; auto; congruence.
  - unfold handleKeySubmission.
    destruct (string_falsy (trim (apiKeyInput (dom (dash sys))))) eqn:Hu;
      [cbn; split; auto |].
    unfold call_fetchAndDisplayDashboard, fetchAndDisplayDashboard_start.
    cbn. rewrite Hu.
    destruct (isLoading (state (dash sys))); cbn; rewrite ?Hu; split; auto.
  - cbn. split; auto.
  - destruct (resume_keeps r (dash sys)) as (Ha & _ & _ & Hk & _).
    cbn [dash]. rewrite Ha, Hk. split; auto.
Qed.

Lemma step_never_relocks_witness :
  locked (dom (dash (call_fetchAndDisplayDashboard loading_page))) = false.
Proof.
  exact (proj1 (step_never_relocks loading_page _ (step_submit loading_page)) eq_refl).
Defined.

Ltac grown :=
  first [ new_entries
        | exists []; now rewrite app_nil_r
        | eexists; reflexivity ].

Lemma history_grows_trans (sys1 sys2 sys3 : system) :
  history_grows sys1 sys2 -> history_grows sys2 sys3 -> history_grows sys1 sys3.
Proof.
  intros ((e1 & H1) & (a1 & A1) & (r1 & R1)) ((e2 & H2) & (a2 & A2) & (r2 & R2)).
  repeat split.
  - exists (e2 ++ e1). now rewrite H2, H1, app_assoc.
  - exists (a2 ++ a1). now rewrite A2, A1, app_assoc.
  - exists (r1 ++ r2). now rewrite R2, R1, app_assoc.
Qed.

Lemma call_grows (sys : system) : history_grows sys (call_fetchAndDisplayDashboard sys).
Proof.
  unfold call_fetchAndDisplayDashboard, fetchAndDisplayDashboard_start.
  destruct (isLoading (state (dash sys)) || key_falsy (apiKey (state (dash sys))));
    [destruct (key_falsy (apiKey (state (dash sys)))) |];
    repeat split; cbn; grown.
Qed.

Lemma step_grows (sys sys' : system) : step sys sys' -> history_grows sys sys'.
Proof.
  intros Hstep.
  destruct Hstep as [sys | sys | sys tick key | sys n env schedule r Hn Hr].
  - apply call_grows.
  - unfold handleKeySubmission.
    destruct (string_falsy (trim (apiKeyInput (dom (dash sys))))).
    + repeat split; cbn; grown.
    + eapply history_grows_trans; [| apply call_grows].
      repeat split; cbn; grown.
  - repeat split; cbn; grown.
  - destruct (resume_keeps r (dash sys)) as (_ & _ & _ & _ & Hlog & Halerts).
    repeat split; cbn [dash issued]; [exact Hlog | exact Halerts | grown].
Qed.

(** X29. The page keeps its history: no event removes or rewrites an entry
    of the status log, an alert already shown or a request already issued;
    each event only adds new ones, log entries on top and requests at the
    end. *)
Theorem history_is_only_extended (sys sys' : system) :
  step sys sys' ->
  (exists entries,
     statusLog (dom (dash sys')) = entries ++ statusLog (dom (dash sys))) /\
  (exists shown, alerts (dash sys') = shown ++ alerts (dash sys)) /\
  (exists requests, issued sys' = issued sys ++ requests).
Proof. apply step_grows. Qed.

Lemma history_is_only_extended_witness :
  exists requests,
    issued (handleKeySubmission loading_page) = issued loading_page ++ requests.
Proof.
  exact (proj2 (proj2 (history_is_only_extended loading_page _
                         (step_saveKey loading_page)))).
Defined.

Lemma call_keeps_ticker_inv (sys : system) :
  ticker_inv sys -> ticker_inv (call_fetchAndDisplayDashboard sys).
Proof.
  intros Hinv. unfold call_fetchAndDisplayDashboard, fetchAndDisplayDashboard_start.
  destruct (isLoading (state (dash sys))) eqn:Hl; cbn [orb].
  - destruct (key_falsy (apiKey (state (dash sys)))); unfold ticker_inv; cbn;
      intros _; apply Hinv; exact Hl.
  - destruct (key_falsy (apiKey (state (dash sys)))); unfold ticker_inv; cbn.
    + rewrite Hl. discriminate.
    + intros _. eexists. eexists. reflexivity.
Qed.

Lemma step_keeps_ticker_inv (sys sys' : system) :
  ticker_inv sys -> step sys sys' -> ticker_inv sys'.
Proof.
  intros Hinv Hstep.
  destruct Hstep as [sys | sys | sys tick key | sys n env schedule r Hn Hr].
  - now apply call_keeps_ticker_inv.
  - unfold handleKeySubmission.
    destruct (string_falsy (trim (apiKeyInput (dom (dash sys))))); [exact Hinv |].
    apply call_keeps_ticker_inv. exact Hinv.
  - exact Hinv.
  - unfold ticker_inv. cbn [dash]. rewrite resume_clears_loading. discriminate.
Qed.

Lemma reachable_ticker_inv (page : dom_state) (stored : option string) (sys : system) :
  reachable page stored sys -> ticker_inv sys.
Proof.
  induction 1 as [| sys sys' _ IH Hstep];
    [| exact (step_keeps_ticker_inv sys sys' IH Hstep)].
  unfold initialize, handleApiKey.
  cbn [script_loaded with_dash dash localStorage logStatus with_dom].
  destruct stored as [key |]; [destruct (string_falsy key) |].
  - unfold ticker_inv. cbn. discriminate.
  - apply call_keeps_ticker_inv. unfold ticker_inv. cbn. discriminate.
  - unfold ticker_inv. cbn. discriminate.
Qed.

(** X30. The ticker a cycle reports is the ticker it fetched: in every
    state the page can reach with a cycle in flight, the seven requests
    issued last are for the current ticker, whatever was typed or submitted
    since; and when that cycle completes, the entry on top of the log says
    ['Dashboard updated for'] that ticker. *)
Theorem completed_cycle_names_fetched_ticker (page : dom_state) (stored : option string)
  (sys : system) (b : bundle) :
  reachable page stored sys ->
  isLoading (state (dash sys)) = true ->
  cycle_error (Normal b) (dash sys) = None ->
  exists older key,
    issued sys
    = older ++ fetchAllEndpoints_requests (currentTicker (state (dash sys))) key /\
    hd_error (statusLog (dom (fetchAndDisplayDashboard_resume (Normal b) (dash sys))))
    = Some {| entry_message :=
                Text ("Dashboard updated for " ++ currentTicker (state (dash sys)) ++ ".");
              entry_type := "success" |}.
Proof.
  intros Hreach Hl Hok.
  destruct (reachable_ticker_inv page stored sys Hreach Hl) as (older & key & Hissued).
  exists older, key. split; [exact Hissued |].
  destruct (completed_cycle_log (Normal b) (dash sys) Hok) as [_ Hlog].
  now rewrite Hlog.
Qed.

Lemma completed_cycle_names_fetched_ticker_witness :
  exists older key,
    issued loading_page
    = older ++ fetchAllEndpoints_requests (currentTicker (state (dash loading_page))) key /\
    hd_error (statusLog (dom (fetchAndDisplayDashboard_resume (Normal sample_bundle)
                                (dash loading_page))))
    = Some {| entry_message :=
                Text ("Dashboard updated for "
                      ++ currentTicker (state (dash loading_page)) ++ ".");
              entry_type := "success" |}.
Proof.
  exact (completed_cycle_names_fetched_ticker blank_page (Some "token"%string)
           loading_page sample_bundle
           (reachable_initialize blank_page (Some "token"%string)) eq_refl eq_refl).
Defined.

